(** * Market-data clients for Solana tokens: an embedding of
      [birdeye.py] and [dexscreener.py]

    The two clients decode provider responses (untyped JSON) into
    [PriceInfo] and [TokenOverview] values.  The Python code is embedded
    shallowly: JSON-decoded values are an inductive type, every Python
    operation that can raise returns a [result], and the client methods
    run in a small monad that records the requests handed to the
    transport. *)

From Stdlib Require Import ZArith NArith QArith Qpower Qfield List String Ascii Bool Lia.
From Stdlib Require Import Floats.SpecFloat.
Import ListNotations.

Local Open Scope string_scope.
Local Open Scope Z_scope.

Set Warnings "-register-all".

(* ===================================================================== *)
(** * Values decoded by [response.json()] *)
(* ===================================================================== *)

(** A Python [str] is a sequence of code points; the model covers the
    strings whose code points are below 256, one [ascii] per code point.
    A [float] is a binary64 value ([prec = 53], [emax = 1024]). *)
Inductive json : Type :=
| JNull
| JBool (b : bool)
| JInt (n : Z)
| JFloat (f : spec_float)
| JStr (s : string)
| JList (l : list json)
| JDict (d : list (string * json)).

(** Exceptions the two modules raise themselves ([custom_exceptions]) and
    the built-in ones that escape from the operations they use. *)
Inductive exn : Type :=
| NoPositionsError
| InvalidSolanaAddress (msg : string)
| InvalidTokens
| KeyError (key : json)
| IndexError
| TypeError
| AttributeError
| ValueError
| OverflowError
| InvalidOperation
| JSONDecodeError
| RequestException.

Inductive result (A : Type) : Type :=
| Ok (a : A)
| Err (e : exn).
Arguments Ok {A} a.
Arguments Err {A} e.

Definition rbind {A B} (r : result A) (k : A -> result B) : result B :=
  match r with
  | Ok a => k a
  | Err e => Err e
  end.

Declare Scope result_scope.
Delimit Scope result_scope with result.
Notation "x <- r ;; k" := (rbind r (fun x => k))
  (at level 61, r at next level, right associativity) : result_scope.

Module Py.

(** Truth value of an object, as tested by [if x:] and [not x]. *)
Definition truthy (v : json) : bool :=
  match v with
  | JNull => false
  | JBool b => b
  | JInt n => negb (n =? 0)
  | JFloat (S754_zero _) => false
  | JFloat _ => true
  | JStr s => negb (String.eqb s "")
  | JList l => match l with [] => false | _ => true end
  | JDict d => match d with [] => false | _ => true end
  end.

Fixpoint lookup (k : string) (d : list (string * json)) : option json :=
  match d with
  | [] => None
  | (k', v) :: d' => if String.eqb k' k then Some v else lookup k d'
  end.

(** [o.get(k, default)]: only a dict has the method. *)
Definition get (o : json) (k : string) (default : json) : result json :=
  match o with
  | JDict d => Ok (match lookup k d with Some v => v | None => default end)
  | _ => Err AttributeError
  end.

(** [o[k]] for a string subscript. *)
Definition getitem (o : json) (k : string) : result json :=
  match o with
  | JDict d => match lookup k d with
               | Some v => Ok v
               | None => Err (KeyError (JStr k))
               end
  | _ => Err TypeError
  end.

(** [o[0]]: first element of a list or a string; a decoded dict has
    only string keys. *)
Definition getitem0 (o : json) : result json :=
  match o with
  | JList [] => Err IndexError
  | JList (x :: _) => Ok x
  | JStr EmptyString => Err IndexError
  | JStr (String c _) => Ok (JStr (String c EmptyString))
  | JDict _ => Err (KeyError (JInt 0))
  | _ => Err TypeError
  end.

Fixpoint chars (s : string) : list json :=
  match s with
  | EmptyString => []
  | String c s' => JStr (String c EmptyString) :: chars s'
  end.

(** [for x in o]: the elements of a list, the keys of a dict, the
    characters of a string. *)
Definition iter (o : json) : result (list json) :=
  match o with
  | JList l => Ok l
  | JDict d => Ok (map (fun kv => JStr (fst kv)) d)
  | JStr s => Ok (chars s)
  | _ => Err TypeError
  end.

(** [o == s] for a [str] [s]. *)
Definition eq_str (o : json) (s : string) : bool :=
  match o with
  | JStr t => String.eqb t s
  | _ => false
  end.

(** [o == v] where [v] comes from [os.getenv]: a [str] or [None]. *)
Definition eq_env (o : json) (v : option string) : bool :=
  match v with
  | Some s => eq_str o s
  | None => match o with JNull => true | _ => false end
  end.

End Py.

(* ===================================================================== *)
(** * Floats *)
(* ===================================================================== *)

Module PyFloat.

Definition prec : Z := 53.
Definition emax : Z := 1024.

(** [float(n)] for an [int]: the nearest binary64 value, ties to even. *)
Definition of_Z (n : Z) : spec_float := binary_normalize prec emax n 0 false.

Definition neg_one : spec_float := Eval vm_compute in of_Z (-1).
Definition one : spec_float := Eval vm_compute in of_Z 1.

(** [a > b] on floats; false as soon as one side is a NaN. *)
Definition gt (a b : spec_float) : bool := SFltb b a.

(** Odd mantissa and matching exponent of [m * 2^e]. *)
Fixpoint strip_twos (m : positive) (e : Z) : positive * Z :=
  match m with
  | xO m' => strip_twos m' (e + 1)
  | _ => (m, e)
  end.

(** The integer a float is equal to, when there is one. *)
Definition to_Z_exact (f : spec_float) : option Z :=
  match f with
  | S754_zero _ => Some 0
  | S754_finite s m e =>
      let (m', e') := strip_twos m e in
      if 0 <=? e'
      then Some ((if s then -1 else 1) * (Z.pos m' * 2 ^ e'))
      else None
  | _ => None
  end.

End PyFloat.

(* ===================================================================== *)
(** * [decimal.Decimal] *)
(* ===================================================================== *)

Module PyDecimal.

(** A decimal is a sign, a coefficient and an exponent, or one of the
    special values. *)
Inductive t : Type :=
| Finite (sign : bool) (coeff : N) (exp : Z)
| Infinity (sign : bool)
| NaN (sign : bool) (signaling : bool) (diag : N).

(** Exponent limits of an exact conversion from a string. *)
Definition EMAX : Z := 999999999999999999.
Definition ETINY : Z := -1999999999999999997.

Definition in_codes (lo hi : N) (c : ascii) : bool :=
  ((lo <=? N_of_ascii c) && (N_of_ascii c <=? hi))%N.

(** White space removed by [str.strip()]. *)
Definition is_space (c : ascii) : bool :=
  in_codes 9 13 c || in_codes 28 32 c || in_codes 133 133 c || in_codes 160 160 c.

Definition digit_of (c : ascii) : option N :=
  if in_codes 48 57 c then Some (N_of_ascii c - 48)%N else None.

Definition lower (c : ascii) : ascii :=
  if in_codes 65 90 c then ascii_of_N (N_of_ascii c + 32) else c.

Fixpoint lstrip (l : list ascii) : list ascii :=
  match l with
  | c :: r => if is_space c then lstrip r else l
  | [] => []
  end.

Fixpoint rstrip (l : list ascii) : list ascii :=
  match l with
  | [] => []
  | c :: r => match rstrip r with
              | [] => if is_space c then [] else [c]
              | r' => c :: r'
              end
  end.

Definition strip (l : list ascii) : list ascii := rstrip (lstrip l).

Definition not_underscore (c : ascii) : bool := negb (Ascii.eqb c "_").

(** The longest run of digits at the front, and what follows it. *)
Fixpoint span_digits (l : list ascii) : list N * list ascii :=
  match l with
  | c :: r => match digit_of c with
              | Some d => let (ds, rest) := span_digits r in (d :: ds, rest)
              | None => ([], l)
              end
  | [] => ([], [])
  end.

(** [int(digits)] *)
Definition digits_val (ds : list N) : N :=
  fold_left (fun acc d => 10 * acc + d)%N ds 0%N.

Fixpoint drop_zeros (ds : list N) : list N :=
  match ds with
  | 0%N :: r => drop_zeros r
  | _ => ds
  end.

Definition parse_sign (l : list ascii) : bool * list ascii :=
  match l with
  | c :: r => if Ascii.eqb c "-" then (true, r)
              else if Ascii.eqb c "+" then (false, r)
              else (false, l)
  | [] => (false, [])
  end.

(** An optional exponent ([e] or [E], an optional sign, one digit or
    more), then the end of the string. *)
Definition parse_exponent (l : list ascii) : option Z :=
  match l with
  | [] => Some 0
  | c :: r =>
      if Ascii.eqb (lower c) "e" then
        let (neg, r') := parse_sign r in
        match span_digits r' with
        | ((_ :: _) as ds, []) =>
            Some (if neg then - Z.of_N (digits_val ds) else Z.of_N (digits_val ds))
        | _ => None
        end
      else None
  end.

(** A finite numeral: digits, then optionally a point and digits, with
    at least one digit in all, then optionally an exponent.  Returns
    the digits of the integer and fractional parts together, and the
    exponent once the length of the fractional part is taken off. *)
Definition parse_finite (l : list ascii) : option (list N * Z) :=
  let (ip, r1) := span_digits l in
  let (fp, r2) :=
    match r1 with
    | c :: r => if Ascii.eqb c "." then span_digits r else ([], r1)
    | [] => ([], [])
    end in
  match ip, fp with
  | [], [] => None
  | _, _ =>
      match parse_exponent r2 with
      | Some e => Some ((ip ++ fp)%list, e - Z.of_nat (List.length fp))
      | None => None
      end
  end.

Fixpoint strip_prefix (p : list ascii) (l : list ascii) : option (list ascii) :=
  match p, l with
  | [], _ => Some l
  | a :: p', b :: l' => if Ascii.eqb a b then strip_prefix p' l' else None
  | _ :: _, [] => None
  end.

(** [inf], [infinity], or [nan] with an optional leading [s] and
    trailing digits, on lower-cased characters. *)
Definition parse_special (sign : bool) (l : list ascii) : option t :=
  match strip_prefix (list_ascii_of_string "inf") l with
  | Some [] => Some (Infinity sign)
  | Some r => match strip_prefix (list_ascii_of_string "inity") r with
              | Some [] => Some (Infinity sign)
              | _ => None
              end
  | None =>
      let '(signaling, r) :=
        match strip_prefix (list_ascii_of_string "s") l with
        | Some r => (true, r)
        | None => (false, l)
        end in
      match strip_prefix (list_ascii_of_string "nan") r with
      | Some r' => match span_digits r' with
                   | (ds, []) => Some (NaN sign signaling (digits_val ds))
                   | _ => None
                   end
      | None => None
      end
  end.

Definition in_range (ds : list N) (exp : Z) : bool :=
  (ETINY <=? exp) &&
  match drop_zeros ds with
  | [] => exp <=? EMAX
  | sig => exp + Z.of_nat (List.length sig) - 1 <=? EMAX
  end.

Definition of_chars (l : list ascii) : result t :=
  let (sign, body) := parse_sign (filter not_underscore (strip l)) in
  match parse_finite body with
  | Some (ds, exp) =>
      if in_range ds exp then Ok (Finite sign (digits_val ds) exp)
      else Err InvalidOperation
  | None =>
      match parse_special sign (map lower body) with
      | Some d => Ok d
      | None => Err InvalidOperation
      end
  end.

(** [Decimal(s)] for a [str]. *)
Definition of_str (s : string) : result t := of_chars (list_ascii_of_string s).

(** [Decimal(f)] for a [float]: the exact value of [f]. *)
Definition of_float (f : spec_float) : t :=
  match f with
  | S754_zero s => Finite s 0 0
  | S754_infinity s => Infinity s
  | S754_nan => NaN false false 0
  | S754_finite s m e =>
      let (m', e') := PyFloat.strip_twos m e in
      if 0 <=? e' then Finite s (Z.to_N (Z.pos m' * 2 ^ e')) 0
      else Finite s (Z.to_N (Z.pos m' * 5 ^ (- e'))) e'
  end.

(** [Decimal(n)] for an [int]. *)
Definition of_Z (n : Z) : t := Finite (n <? 0) (Z.abs_N n) 0.

(** The rational number a finite decimal stands for. *)
Definition to_Q (d : t) : option Q :=
  match d with
  | Finite s c e =>
      Some ((if s then - inject_Z (Z.of_N c) else inject_Z (Z.of_N c)) * Qpower (10 # 1) e)%Q
  | _ => None
  end.

End PyDecimal.

(* ===================================================================== *)
(** * Dictionaries built by the clients *)
(* ===================================================================== *)

(** Keys of a [dict]: hashable values up to [==].  [True], [1] and [1.0]
    are one key, so numbers equal to an integer are stored as that
    integer; the other floats keep an odd mantissa. *)
Inductive pykey : Type :=
| KNone
| KInt (n : Z)
| KFloat (f : spec_float)
| KStr (s : string).

Definition key_of_json (v : json) : result pykey :=
  match v with
  | JNull => Ok KNone
  | JBool b => Ok (KInt (if b then 1 else 0))
  | JInt n => Ok (KInt n)
  | JFloat f =>
      match PyFloat.to_Z_exact f with
      | Some n => Ok (KInt n)
      | None =>
          match f with
          | S754_finite s m e =>
              let (m', e') := PyFloat.strip_twos m e in Ok (KFloat (S754_finite s m' e'))
          | _ => Ok (KFloat f)
          end
      end
  | JStr s => Ok (KStr s)
  | JList _ | JDict _ => Err TypeError
  end.

Definition spec_float_eqb (a b : spec_float) : bool :=
  match a, b with
  | S754_zero s, S754_zero s' => Bool.eqb s s'
  | S754_infinity s, S754_infinity s' => Bool.eqb s s'
  | S754_nan, S754_nan => true
  | S754_finite s m e, S754_finite s' m' e' => Bool.eqb s s' && Pos.eqb m m' && Z.eqb e e'
  | _, _ => false
  end.

Definition pykey_eqb (a b : pykey) : bool :=
  match a, b with
  | KNone, KNone => true
  | KInt n, KInt n' => Z.eqb n n'
  | KFloat f, KFloat f' => spec_float_eqb f f'
  | KStr s, KStr s' => String.eqb s s'
  | _, _ => false
  end.

Module PyDict.

(** Entries in insertion order, one per key. *)
Definition t (V : Type) : Type := list (pykey * V).

Definition empty {V} : t V := [].

Fixpoint get {V} (k : pykey) (d : t V) : option V :=
  match d with
  | [] => None
  | (k', v) :: d' => if pykey_eqb k' k then Some v else get k d'
  end.

(** [d[k] = v]: a present key keeps its place and takes the new value,
    a new key goes to the end. *)
Fixpoint set {V} (k : pykey) (v : V) (d : t V) : t V :=
  match d with
  | [] => [(k, v)]
  | (k', v') :: d' => if pykey_eqb k' k then (k', v) :: d' else (k', v') :: set k v d'
  end.

Definition keys {V} (d : t V) : list pykey := map fst d.

End PyDict.

(* ===================================================================== *)
(** * Shared data shapes ([common]) *)
(* ===================================================================== *)

(** [PriceInfo(value, liquidity)] as the clients build it: both fields
    are decimals. *)
Record PriceInfo : Type := mkPriceInfo {
  value : PyDecimal.t;
  liquidity : PyDecimal.t }.

(** A field of an overview is a decimal computed by the client or a
    value taken from the response as it is. *)
Inductive pyval : Type :=
| VJson (j : json)
| VDecimal (d : PyDecimal.t).

(** Modelled from the spec: [common.TokenOverview] is not among the
    sources; the spec gives its six fields. *)
Record TokenOverview : Type := mkTokenOverview {
  price : pyval;
  symbol : pyval;
  decimals : pyval;
  lastTradeUnixTime : pyval;
  ov_liquidity : pyval;
  supply : pyval }.

Definition TokenOverview_fields : list string :=
  ["price"; "symbol"; "decimals"; "lastTradeUnixTime"; "liquidity"; "supply"].

(** Modelled from the spec: [TokenOverview] called with the keyword
    arguments unpacked from a mapping needs a mapping whose keys are
    exactly the six fields; anything else is a construction failure. *)
Definition TokenOverview_of_kwargs (o : json) : result TokenOverview :=
  match o with
  | JDict d =>
      if forallb (fun kv => existsb (String.eqb (fst kv)) TokenOverview_fields) d then
        match Py.lookup "price" d, Py.lookup "symbol" d, Py.lookup "decimals" d,
              Py.lookup "lastTradeUnixTime" d, Py.lookup "liquidity" d, Py.lookup "supply" d with
        | Some p, Some s, Some dc, Some lt, Some lq, Some sp =>
            Ok (mkTokenOverview (VJson p) (VJson s) (VJson dc) (VJson lt) (VJson lq) (VJson sp))
        | _, _, _, _, _, _ => Err TypeError
        end
      else Err TypeError
  | _ => Err TypeError
  end.

(* ===================================================================== *)
(** * Environment and transport *)
(* ===================================================================== *)

Record Request : Type := mkRequest {
  method : string;
  url : string;
  headers : list (string * option string) }.

(** What the clients read of a [requests.Response]: the status code and
    the decoded body, absent when the body is not JSON. *)
Record Response : Type := mkResponse {
  status_code : Z;
  body : option json }.

(** Everything the two modules take from outside: the address check of
    [helper], the two environment variables, the transport, and the two
    library conversions whose details the clients do not depend on
    ([float] of a string, [Decimal] of a sequence). *)
Record Env : Type := mkEnv {
  is_solana_address : string -> bool;
  BIRD_EYE_TOKEN : option string;
  SOL_MINT : option string;
  send : Request -> result Response;
  float_of_str : string -> option spec_float;
  Decimal_of_list : list json -> result PyDecimal.t }.

(** A computation that may raise and that records, in order, the
    requests it hands to the transport. *)
Definition Trace : Type := list Request.
Definition M (A : Type) : Type := Trace -> result A * Trace.

Definition ret {A} (a : A) : M A := fun tr => (Ok a, tr).
Definition raise {A} (e : exn) : M A := fun tr => (Err e, tr).
Definition lift {A} (r : result A) : M A := fun tr => (r, tr).
Definition bind {A B} (m : M A) (k : A -> M B) : M B :=
  fun tr => match m tr with
            | (Ok a, tr') => k a tr'
            | (Err e, tr') => (Err e, tr')
            end.
Definition request (w : Env) (rq : Request) : M Response :=
  fun tr => (send w rq, (tr ++ [rq])%list).

Declare Scope monad_scope.
Delimit Scope monad_scope with monad.
Notation "x <- m ;; k" := (bind m (fun x => k))
  (at level 61, m at next level, right associativity) : monad_scope.

(** [response.json()] *)
Definition json_of (r : Response) : result json :=
  match body r with
  | Some j => Ok j
  | None => Err JSONDecodeError
  end.

(** [Decimal(v)] *)
Definition Decimal (w : Env) (v : json) : result PyDecimal.t :=
  match v with
  | JStr s => PyDecimal.of_str s
  | JInt n => Ok (PyDecimal.of_Z n)
  | JBool b => Ok (PyDecimal.of_Z (if b then 1 else 0))
  | JFloat f => Ok (PyDecimal.of_float f)
  | JList l => Decimal_of_list w l
  | JNull | JDict _ => Err TypeError
  end.

(** [float(v)] *)
Definition float (w : Env) (v : json) : result spec_float :=
  match v with
  | JFloat f => Ok f
  | JInt n => match PyFloat.of_Z n with
              | S754_infinity _ => Err OverflowError
              | f => Ok f
              end
  | JBool b => Ok (if b then PyFloat.one else S754_zero false)
  | JStr s => match float_of_str w s with
              | Some f => Ok f
              | None => Err ValueError
              end
  | JNull | JList _ | JDict _ => Err TypeError
  end.

(* ===================================================================== *)
(** * String helpers *)
(* ===================================================================== *)

Module Str.

Definition hex_digit (n : N) : ascii :=
  if (n <? 10)%N then ascii_of_N (48 + n) else ascii_of_N (55 + n).

Definition percent (n : N) : string :=
  String "%" (String (hex_digit (n / 16)) (String (hex_digit (n mod 16)) EmptyString)).

Definition unreserved (c : ascii) : bool :=
  PyDecimal.in_codes 65 90 c || PyDecimal.in_codes 97 122 c || PyDecimal.in_codes 48 57 c
  || Ascii.eqb c "_" || Ascii.eqb c "." || Ascii.eqb c "-" || Ascii.eqb c "~"
  || Ascii.eqb c "/".

(** [urllib.parse.quote(s)]: unreserved characters and [/] stay, every
    other byte of the UTF-8 encoding becomes [%XX]. *)
Fixpoint quote (s : string) : string :=
  match s with
  | EmptyString => EmptyString
  | String c s' =>
      let n := N_of_ascii c in
      (if unreserved c then String c EmptyString
       else if (n <? 128)%N then percent n
       else percent (192 + n / 64) ++ percent (128 + n mod 64)) ++ quote s'
  end.

Definition upper_char (c : ascii) : ascii :=
  if PyDecimal.in_codes 97 122 c then ascii_of_N (N_of_ascii c - 32) else c.

(** [s.upper()] on the letters [a] to [z], which is what the two
    comparisons of [_make_api_call] can see. *)
Fixpoint upper (s : string) : string :=
  match s with
  | EmptyString => EmptyString
  | String c s' => String (upper_char c) (upper s')
  end.

End Str.

(* ===================================================================== *)
(** * [birdeye.py] *)
(* ===================================================================== *)

Module BirdEyeClient.

Local Open Scope monad_scope.

Definition _headers (w : Env) : list (string * option string) :=
  [("accept", Some "application/json");
   ("x-chain", Some "solana");
   ("X-API-KEY", BIRD_EYE_TOKEN w)].

Definition _make_api_call (w : Env) (method query_url : string) : M Response :=
  let m := Str.upper method in
  if String.eqb m "GET" then request w (mkRequest "GET" query_url (_headers w))
  else if String.eqb m "POST" then request w (mkRequest "POST" query_url (_headers w))
  else raise ValueError.

(** Lines 83 to 85: the [PriceInfo] of one non-empty entry. *)
Definition price_info (w : Env) (token_data : json) : result PriceInfo :=
  (p <- Py.get token_data "price" (JStr "0") ;;
   value <- Decimal w p ;;
   l <- Py.get token_data "liquidity" (JStr "0") ;;
   liquidity <- Decimal w l ;;
   Ok (mkPriceInfo value liquidity))%result.

(** Line 81: [data.get("data", {}).get(token_address, {})]. *)
Definition token_data_of (data : json) (token_address : string) : result json :=
  (d <- Py.get data "data" (JDict []) ;;
   Py.get d token_address (JDict []))%result.

(** The loop of lines 80 to 85. *)
Fixpoint prices_loop (w : Env) (data : json) (token_addresses : list string)
         (prices : PyDict.t PriceInfo) : result (PyDict.t PriceInfo) :=
  match token_addresses with
  | [] => Ok prices
  | token_address :: rest =>
      (token_data <- token_data_of data token_address ;;
       if Py.truthy token_data then
         info <- price_info w token_data ;;
         prices_loop w data rest (PyDict.set (KStr token_address) info prices)
       else prices_loop w data rest prices)%result
  end.

Definition multi_price_url (token_addresses : list string) : string :=
  "https://public-api.birdeye.so/defi/multi_price" ++ "?list_address="
    ++ Str.quote (String.concat "," token_addresses).

Definition fetch_prices (w : Env) (token_addresses : list string)
  : M (PyDict.t PriceInfo) :=
  match token_addresses with
  | [] => raise NoPositionsError
  | _ =>
      response <- _make_api_call w "GET" (multi_price_url token_addresses) ;;
      if negb (status_code response =? 200) then raise InvalidTokens
      else
        data <- lift (json_of response) ;;
        success <- lift (Py.get data "success" JNull) ;;
        if negb (Py.truthy success) then raise InvalidTokens
        else lift (prices_loop w data token_addresses PyDict.empty)
  end.

Definition overview_url (address : string) : string :=
  "https://api.birdeye.so/v1/token-overview/" ++ address.

Definition fetch_token_overview (w : Env) (address : string) : M TokenOverview :=
  if negb (is_solana_address w address) then raise (InvalidSolanaAddress address)
  else
    response <- _make_api_call w "GET" (overview_url address) ;;
    if negb (status_code response =? 200) then raise InvalidTokens
    else
      data <- lift (json_of response) ;;
      success <- lift (Py.get data "success" JNull) ;;
      if negb (Py.truthy success) then raise InvalidTokens
      else
        overview_data <- lift (Py.get data "data" (JDict [])) ;;
        lift (TokenOverview_of_kwargs overview_data).

End BirdEyeClient.

(* ===================================================================== *)
(** * [dexscreener.py] *)
(* ===================================================================== *)

Module DexScreenerClient.

Local Open Scope monad_scope.

Definition _validate_token_address (w : Env) (token_address : string) : result unit :=
  if String.eqb token_address "" then Err NoPositionsError
  else if negb (is_solana_address w token_address)
       then Err (InvalidSolanaAddress token_address)
       else Ok tt.

Fixpoint validate_each (w : Env) (token_addresses : list string) : result unit :=
  match token_addresses with
  | [] => Ok tt
  | address :: rest =>
      (_ <- _validate_token_address w address ;; validate_each w rest)%result
  end.

Definition _validate_token_addresses (w : Env) (token_addresses : list string)
  : result unit :=
  match token_addresses with
  | [] => Err NoPositionsError
  | _ => validate_each w token_addresses
  end.

Definition _validate_response (resp : Response) : result unit :=
  if negb (status_code resp =? 200) then Err InvalidTokens else Ok tt.

Definition tokens_url (path : string) : string :=
  "https://api.dexscreener.io/latest/dex/tokens/" ++ path.

Definition _call_api (w : Env) (token_address : string) : M json :=
  _ <- lift (_validate_token_address w token_address) ;;
  response <- request w (mkRequest "GET" (tokens_url token_address) []) ;;
  _ <- lift (_validate_response response) ;;
  lift (json_of response).

Definition _call_api_bulk (w : Env) (token_addresses : list string) : M json :=
  _ <- lift (_validate_token_addresses w token_addresses) ;;
  response <- request w
    (mkRequest "GET" (tokens_url (String.concat "," token_addresses)) []) ;;
  _ <- lift (_validate_response response) ;;
  lift (json_of response).

(** Lines 147 to 151: the key and the [PriceInfo] written for one pair. *)
Definition price_entry (w : Env) (pair_ : json) : result (pykey * PriceInfo) :=
  (pn <- Py.getitem pair_ "priceNative" ;;
   price <- Decimal w pn ;;
   lq <- Py.getitem pair_ "liquidity" ;;
   usd <- Py.getitem lq "usd" ;;
   liquidity <- Decimal w usd ;;
   bt <- Py.getitem pair_ "baseToken" ;;
   addr <- Py.getitem bt "address" ;;
   k <- key_of_json addr ;;
   Ok (k, mkPriceInfo price liquidity))%result.

(** The loop of lines 145 to 151. *)
Fixpoint prices_loop (w : Env) (pairs : list json)
         (prices_and_liquidity : PyDict.t PriceInfo) : result (PyDict.t PriceInfo) :=
  match pairs with
  | [] => Ok prices_and_liquidity
  | pair_ :: rest =>
      (kv <- price_entry w pair_ ;;
       prices_loop w rest (PyDict.set (fst kv) (snd kv) prices_and_liquidity))%result
  end.

Definition prices_of_data (w : Env) (data : json) : result (PyDict.t PriceInfo) :=
  (ps <- Py.getitem data "pairs" ;;
   pairs <- Py.iter ps ;;
   prices_loop w pairs PyDict.empty)%result.

Definition fetch_prices_dex (w : Env) (token_addresses : list string)
  : M (PyDict.t PriceInfo) :=
  data <- _call_api_bulk w token_addresses ;;
  lift (prices_of_data w data).

Definition overview_of_data (w : Env) (data : json) : result TokenOverview :=
  (ps <- Py.getitem data "pairs" ;;
   pair_ <- Py.getitem0 ps ;;
   base_token <- Py.getitem pair_ "baseToken" ;;
   liquidity <- Py.getitem pair_ "liquidity" ;;
   price_usd <- Py.get pair_ "priceUsd" (JStr "0") ;;
   price <- Decimal w price_usd ;;
   symbol <- Py.get base_token "symbol" (JStr "") ;;
   decimals <- Py.get base_token "decimals" (JInt 0) ;;
   last_trade <- Py.get pair_ "lastTradeUnixTime" (JInt 0) ;;
   usd <- Py.getitem liquidity "usd" ;;
   liq <- Decimal w usd ;;
   supply <- Py.get pair_ "supply" (JInt 0) ;;
   Ok (mkTokenOverview (VDecimal price) (VJson symbol) (VJson decimals)
         (VJson last_trade) (VDecimal liq) (VJson supply)))%result.

Definition fetch_token_overview (w : Env) (address : string) : M TokenOverview :=
  data <- _call_api w address ;;
  lift (overview_of_data w data).

(** Line 197: the test of one entry.  The right operand of [and] is
    evaluated only when the left one holds. *)
Definition entry_matches (w : Env) (entry : json) (address : string) : result bool :=
  (base_token <- Py.get entry "baseToken" (JDict []) ;;
   base_address <- Py.get base_token "address" JNull ;;
   if Py.eq_str base_address address then
     quote_token <- Py.getitem entry "quoteToken" ;;
     quote_address <- Py.getitem quote_token "address" ;;
     Ok (Py.eq_env quote_address (SOL_MINT w))
   else Ok false)%result.

(** Line 198: [float(entry.get("liquidity", {}).get("usd", 0))]. *)
Definition liquidity_usd (w : Env) (entry : json) : result spec_float :=
  (lq <- Py.get entry "liquidity" (JDict []) ;;
   usd <- Py.get lq "usd" (JInt 0) ;;
   float w usd)%result.

(** The loop of lines 195 to 201.  [max_liquidity_usd] starts as the
    integer [-1], which compares with a float as [-1.0] does. *)
Fixpoint largest_loop (w : Env) (token_pairs : list json) (address : string)
         (max_entry : json) (max_liquidity_usd : spec_float) : result json :=
  match token_pairs with
  | [] => Ok max_entry
  | entry :: rest =>
      (is_match <- entry_matches w entry address ;;
       if is_match : bool then
         liquidity_usd <- liquidity_usd w entry ;;
         if PyFloat.gt liquidity_usd max_liquidity_usd
         then largest_loop w rest address entry liquidity_usd
         else largest_loop w rest address max_entry max_liquidity_usd
       else largest_loop w rest address max_entry max_liquidity_usd)%result
  end.

Definition find_largest_pool_with_sol (w : Env) (token_pairs : list json)
           (address : string) : result json :=
  largest_loop w token_pairs address (JDict []) PyFloat.neg_one.

End DexScreenerClient.

(* ===================================================================== *)
(** * The address check and sample data *)
(* ===================================================================== *)

Module Base58.

Definition alphabet : list ascii :=
  list_ascii_of_string "123456789ABCDEFGHJKLMNPQRSTUVWXYZabcdefghijkmnopqrstuvwxyz".

Fixpoint index_of (c : ascii) (l : list ascii) (i : N) : option N :=
  match l with
  | [] => None
  | a :: l' => if Ascii.eqb a c then Some i else index_of c l' (i + 1)%N
  end.

Fixpoint value (l : list ascii) (acc : N) : option N :=
  match l with
  | [] => Some acc
  | c :: l' => match index_of c alphabet 0 with
               | Some d => value l' (acc * 58 + d)%N
               | None => None
               end
  end.

Fixpoint leading_ones (l : list ascii) : N :=
  match l with
  | c :: l' => if Ascii.eqb c "1" then (1 + leading_ones l')%N else 0%N
  | [] => 0%N
  end.

(** Number of bytes the string decodes to: one zero byte per leading
    [1], then the bytes of the number. *)
Definition decoded_length (s : string) : option N :=
  let l := list_ascii_of_string s in
  match value l 0 with
  | Some n => Some (leading_ones l + (N.size n + 7) / 8)%N
  | None => None
  end.

End Base58.

(** Modelled from the spec: [helper.is_solana_address] is not among the
    sources; the spec describes it as "base58-encoded, decodes to exactly
    32 bytes".  The clients take the check from the environment; this
    instance is the one the sample environments use. *)
Definition is_base58_pubkey (s : string) : bool :=
  match Base58.decoded_length s with
  | Some n => (n =? 32)%N
  | None => false
  end.

Definition WSOL : string := "So11111111111111111111111111111111111111112".
Definition USDC : string := "EPjFWdd5AufqSSqeM2qN1xzybapC8G4wEGGkZwyTDt1v".

(** An environment whose transport answers every request with [resp]. *)
Definition sample_env (resp : result Response) : Env :=
  mkEnv is_base58_pubkey (Some "test-key") (Some WSOL)
        (fun _ => resp) (fun _ => None) (fun _ => Err ValueError).

Definition ok_json (j : json) : result Response := Ok (mkResponse 200 (Some j)).

(** A pair record as the pair endpoint returns it. *)
Definition mk_pair (base quote_ : string) (price_native : string) (usd : json) : json :=
  JDict [("baseToken", JDict [("address", JStr base)]);
         ("quoteToken", JDict [("address", JStr quote_)]);
         ("priceNative", JStr price_native);
         ("liquidity", JDict [("usd", usd)])].


(** The error kinds of the specification, and the kind of each exception
    of the code.  The built-in exceptions have no kind, and nothing in
    the two modules stands for [NoPairsFoundError]. *)
Inductive ErrorKind : Type :=
| EmptyInputError
| InvalidAddressError
| ProviderCallError
| NoPairsFoundError.

Definition error_kind (e : exn) : option ErrorKind :=
  match e with
  | NoPositionsError => Some EmptyInputError
  | InvalidSolanaAddress _ => Some InvalidAddressError
  | InvalidTokens => Some ProviderCallError
  | _ => None
  end.

(** The request each method sends. *)
Definition bulk_request (token_addresses : list string) : Request :=
  mkRequest "GET" (DexScreenerClient.tokens_url (String.concat "," token_addresses)) [].

Definition single_request (address : string) : Request :=
  mkRequest "GET" (DexScreenerClient.tokens_url address) [].

Definition multi_price_request (w : Env) (token_addresses : list string) : Request :=
  mkRequest "GET" (BirdEyeClient.multi_price_url token_addresses) (BirdEyeClient._headers w).

(* ===================================================================== *)
(** * Selection of the largest pool: the specification side *)
(* ===================================================================== *)

(** The filter in the words of the specification: the address of the base
    token is [address] and the address of the quote token is the
    configured wrapped-SOL mint. *)
Definition sub_address (field : string) (entry : json) : option json :=
  match entry with
  | JDict d => match Py.lookup field d with
               | Some (JDict t) => Py.lookup "address" t
               | _ => None
               end
  | _ => None
  end.

Definition is_sol_pool (w : Env) (address : string) (entry : json) : bool :=
  match sub_address "baseToken" entry, sub_address "quoteToken" entry with
  | Some b, Some q => Py.eq_str b address && Py.eq_env q (SOL_MINT w)
  | _, _ => false
  end.

(** The shape the scan relies on: the entry is a mapping, its
    [baseToken] is a mapping when present, and when the base token is
    [address] it carries a [quoteToken] mapping with an [address]. *)
Definition pair_shape (address : string) (entry : json) : Prop :=
  exists d,
    entry = JDict d /\
    (Py.lookup "baseToken" d = None \/
     exists t, Py.lookup "baseToken" d = Some (JDict t) /\
       ((exists b, Py.lookup "address" t = Some b /\ Py.eq_str b address = true) ->
        exists q qa, Py.lookup "quoteToken" d = Some (JDict q) /\
                     Py.lookup "address" q = Some qa)).

(** A pool as the example of the specification gives it. *)
Definition pool (base quote_ : string) (usd : Z) : json :=
  JDict [("baseToken", JDict [("address", JStr base)]);
         ("quoteToken", JDict [("address", JStr quote_)]);
         ("liquidity", JDict [("usd", JInt usd)])].


Module FloatOrder.

Definition is_nan (f : spec_float) : bool :=
  match f with S754_nan => true | _ => false end.

(** Position of a float in the order [SFcompare] decides. *)
Definition rank (f : spec_float) : Z * Z * Z :=
  match f with
  | S754_nan => (0, 0, 0)
  | S754_zero _ => (0, 0, 0)
  | S754_infinity s => (if s then -2 else 2, 0, 0)
  | S754_finite s m e => if s then (-1, - e, - Z.pos m) else (1, e, Z.pos m)
  end.

Definition ltk (a b : Z * Z * Z) : Prop :=
  let '(c1, e1, m1) := a in
  let '(c2, e2, m2) := b in
  c1 < c2 \/ (c1 = c2 /\ (e1 < e2 \/ (e1 = e2 /\ m1 < m2))).

Definition eqk (a b : Z * Z * Z) : Prop :=
  let '(c1, e1, m1) := a in
  let '(c2, e2, m2) := b in
  c1 = c2 /\ e1 = e2 /\ m1 = m2.

End FloatOrder.

(* ===================================================================== *)
(** * Entries of [fetch_prices]: the specification side *)
(* ===================================================================== *)

(** The entry [fetch_prices] writes for one address, if any. *)
Definition birdeye_entry (w : Env) (data : json) (token_address : string)
  : option PriceInfo :=
  match BirdEyeClient.token_data_of data token_address with
  | Ok token_data =>
      if Py.truthy token_data then
        match BirdEyeClient.price_info w token_data with
        | Ok info => Some info
        | Err _ => None
        end
      else None
  | Err _ => None
  end.

(** An address with nothing to report: its entry is missing or empty. *)
Definition no_data (data : json) (token_address : string) : bool :=
  match BirdEyeClient.token_data_of data token_address with
  | Ok token_data => negb (Py.truthy token_data)
  | Err _ => false
  end.

(** The addresses on which the body of the loop of [fetch_prices] does
    not raise. *)
Definition readable (w : Env) (data : json) (a : string) : Prop :=
  exists td, BirdEyeClient.token_data_of data a = Ok td /\
             (Py.truthy td = true ->
              exists info, BirdEyeClient.price_info w td = Ok info).

(** The response of the example in the specification. *)
Definition token1_response : json :=
  JDict [("success", JBool true);
         ("data", JDict [("TOKEN1", JDict [("price", JStr "1.23");
                                            ("liquidity", JStr "1000")])])].

(** The success flag of a decoded body, [None] when it is absent. *)
Definition success_flag (top : list (string * json)) : json :=
  match Py.lookup "success" top with
  | Some v => v
  | None => JNull
  end.

(* ===================================================================== *)
(** * Decimal numerals and their exact value *)
(* ===================================================================== *)

Module Numeral.

Inductive digit : Type :=
| Dg0 | Dg1 | Dg2 | Dg3 | Dg4 | Dg5 | Dg6 | Dg7 | Dg8 | Dg9.

Definition digit_val (d : digit) : N :=
  match d with
  | Dg0 => 0 | Dg1 => 1 | Dg2 => 2 | Dg3 => 3 | Dg4 => 4
  | Dg5 => 5 | Dg6 => 6 | Dg7 => 7 | Dg8 => 8 | Dg9 => 9
  end%N.

Definition digit_char (d : digit) : ascii :=
  match d with
  | Dg0 => "0" | Dg1 => "1" | Dg2 => "2" | Dg3 => "3" | Dg4 => "4"
  | Dg5 => "5" | Dg6 => "6" | Dg7 => "7" | Dg8 => "8" | Dg9 => "9"
  end%char.

(** A written sign: none, [+] or [-]. *)
Inductive sign : Type := NoSign | Plus | Minus.

Definition sign_chars (s : sign) : list ascii :=
  match s with
  | NoSign => []
  | Plus => ["+"%char]
  | Minus => ["-"%char]
  end.

Definition is_minus (s : sign) : bool :=
  match s with Minus => true | _ => false end.

(** A decimal numeral: sign, integer digits, an optional point with
    fractional digits, an optional exponent written with [e] or [E]. *)
Record t : Type := mk {
  num_sign : sign;
  int_part : list digit;
  frac_part : option (list digit);
  exponent : option (bool * sign * list digit) }.

Definition frac_digits (n : t) : list digit :=
  match frac_part n with Some f => f | None => [] end.

Definition well_formed (n : t) : Prop :=
  (int_part n <> [] \/ frac_digits n <> []) /\
  (forall u s ds, exponent n = Some (u, s, ds) -> ds <> []).

Definition digits_chars (ds : list digit) : list ascii := map digit_char ds.

Definition exponent_chars (n : t) : list ascii :=
  match exponent n with
  | None => []
  | Some (u, s, ds) =>
      ((if u : bool then "E" else "e")%char :: sign_chars s ++ digits_chars ds)%list
  end.

Definition frac_chars (n : t) : list ascii :=
  match frac_part n with
  | None => []
  | Some f => "."%char :: digits_chars f
  end.

Definition body_chars (n : t) : list ascii :=
  (digits_chars (int_part n) ++ frac_chars n ++ exponent_chars n)%list.

Definition chars (n : t) : list ascii := (sign_chars (num_sign n) ++ body_chars n)%list.

(** The numeral as it is written. *)
Definition render (n : t) : string := string_of_list_ascii (chars n).

(** Value of a digit sequence read as an integer: each digit weighs
    ten to the number of digits after it. *)
Fixpoint int_value (ds : list digit) : N :=
  match ds with
  | [] => 0
  | d :: r => digit_val d * 10 ^ N.of_nat (List.length r) + int_value r
  end%N.

(** Value of a digit sequence read after the point. *)
Fixpoint frac_value (ds : list digit) : Q :=
  match ds with
  | [] => 0
  | d :: r => (inject_Z (Z.of_N (digit_val d)) + frac_value r) / (10 # 1)
  end%Q.

Definition exponent_value (n : t) : Z :=
  match exponent n with
  | None => 0
  | Some (_, s, ds) =>
      if is_minus s then - Z.of_N (int_value ds) else Z.of_N (int_value ds)
  end.

(** The rational number the numeral denotes. *)
Definition denote (n : t) : Q :=
  let magnitude :=
    ((inject_Z (Z.of_N (int_value (int_part n))) + frac_value (frac_digits n))
     * Qpower (10 # 1) (exponent_value n))%Q in
  if is_minus (num_sign n) then (- magnitude)%Q else magnitude.

(** The numeral is within the exponent limits of the conversion. *)
Definition fits (n : t) : Prop :=
  PyDecimal.in_range
    (map digit_val (int_part n ++ frac_digits n)%list)
    (exponent_value n - Z.of_nat (List.length (frac_digits n))) = true.

(** Characters that [strip] and the removal of underscores leave alone. *)
Definition plain (c : ascii) : Prop :=
  PyDecimal.is_space c = false /\ PyDecimal.not_underscore c = true.

(** What may follow a run of digits, and what may follow a sign. *)
Definition no_digit_ahead (l : list ascii) : Prop :=
  match l with
  | [] => True
  | c :: _ => PyDecimal.digit_of c = None
  end.

Definition no_sign_ahead (l : list ascii) : Prop :=
  match l with
  | [] => True
  | c :: _ => Ascii.eqb c "-" = false /\ Ascii.eqb c "+" = false
  end.

(** Powers of ten as rationals. *)
Definition ten : Q := 10 # 1.

Definition pow10 (k : nat) : Q := (ten ^ Z.of_nat k)%Q.

End Numeral.

(** The numeral [0.000000001234]. *)
Definition tiny_numeral : Numeral.t :=
  Numeral.mk Numeral.NoSign [Numeral.Dg0]
    (Some [Numeral.Dg0; Numeral.Dg0; Numeral.Dg0; Numeral.Dg0; Numeral.Dg0;
           Numeral.Dg0; Numeral.Dg0; Numeral.Dg0; Numeral.Dg1; Numeral.Dg2;
           Numeral.Dg3; Numeral.Dg4])
    None.


(** The numeral [0], the default of an absent field. *)
Definition zero_numeral : Numeral.t :=
  Numeral.mk Numeral.NoSign [Numeral.Dg0] None None.

(** A stored decimal stands exactly for the number a numeral denotes. *)
Definition stands_for (d : PyDecimal.t) (n : Numeral.t) : Prop :=
  exists q, PyDecimal.to_Q d = Some q /\ (q == Numeral.denote n)%Q.

(* ===================================================================== *)
(** * What each method does with the response *)
(* ===================================================================== *)

Definition overview_request (w : Env) (address : string) : Request :=
  mkRequest "GET" (BirdEyeClient.overview_url address) (BirdEyeClient._headers w).

(** Lines 72 to 77 and 111 to 116 of [birdeye.py]: the status check, the
    decoding of the body and the check of the success flag. *)
Definition birdeye_decode (resp : Response) : result json :=
  if negb (status_code resp =? 200) then Err InvalidTokens
  else
    (data <- json_of resp ;;
     success <- Py.get data "success" JNull ;;
     if negb (Py.truthy success) then Err InvalidTokens else Ok data)%result.

(** Lines 103 and 104, 126 and 127 of [dexscreener.py]. *)
Definition dex_decode (resp : Response) : result json :=
  (_ <- DexScreenerClient._validate_response resp ;; json_of resp)%result.

(** [d.get(k, default)] on the entries of a mapping. *)
Definition field_or (k : string) (d : list (string * json)) (default : json) : json :=
  match Py.lookup k d with
  | Some v => v
  | None => default
  end.

(** An entry the loop of [fetch_prices] can use: it is empty, or it is a
    mapping whose price and liquidity fields, ["0"] standing for an
    absent one, are values [Decimal] accepts. *)
Definition usable_entry (w : Env) (token_data : json) : Prop :=
  Py.truthy token_data = false \/
  exists td v l,
    token_data = JDict td /\
    Decimal w (field_or "price" td (JStr "0")) = Ok v /\
    Decimal w (field_or "liquidity" td (JStr "0")) = Ok l.


(** The addresses [_validate_token_address] lets through. *)
Definition acceptable (w : Env) (a : string) : Prop :=
  a <> "" /\ is_solana_address w a = true.

(** The exception [_validate_token_address] raises on an address it does
    not let through. *)
Definition rejection (a : string) : exn :=
  if String.eqb a "" then NoPositionsError else InvalidSolanaAddress a.

(** The rational number a float is, when it is a number. *)
Definition float_value (f : spec_float) : option Q :=
  match f with
  | S754_zero _ => Some 0%Q
  | S754_finite s m e =>
      Some ((if s then - inject_Z (Z.pos m) else inject_Z (Z.pos m)) * Qpower (2 # 1) e)%Q
  | _ => None
  end.

(** Characters [urllib.parse.quote] can write: the unreserved ones, [/],
    and the percent sign of an escape. *)
Definition url_safe (c : ascii) : bool := Str.unreserved c || Ascii.eqb c "%".

(** Strings [urllib.parse.quote] leaves as they are. *)
Definition all_unreserved (s : string) : Prop :=
  Forall (fun c => Str.unreserved c = true) (list_ascii_of_string s).

(* ===================================================================== *)
(** * Validation happens before the transport is used *)
(* ===================================================================== *)

Section Validation.

Variable w : Env.

Lemma validate_addresses_error (l : list string) (bad : string) :
  In bad l -> is_solana_address w bad = false ->
  DexScreenerClient._validate_token_addresses w l = DexScreenerClient.validate_each w l.
Proof. destruct l; [contradiction | reflexivity]. Qed.

(** The scan of [_validate_token_addresses] stops at the first address of
    the list that [_validate_token_address] does not let through, and
    raises what that address calls for. *)
Lemma validate_each_first_rejected (l : list string) (bad : string) :
  In bad l -> is_solana_address w bad = false ->
  exists good first rest,
    l = (good ++ first :: rest)%list /\
    Forall (acceptable w) good /\ ~ acceptable w first /\
    DexScreenerClient.validate_each w l = Err (rejection first).
Proof.
  induction l as [|a l IH]; intros Hin Hbad; [contradiction|].
  cbn [DexScreenerClient.validate_each rbind].
  unfold DexScreenerClient._validate_token_address.
  destruct (String.eqb_spec a "") as [->|Hne].
  - exists [], "", l. repeat split; [constructor | intros [H _]; now apply H].
  - destruct (is_solana_address w a) eqn:Ha; cbn [rbind].
    + destruct Hin as [->|Hin]; [congruence|].
      destruct (IH Hin Hbad) as (good & first & rest & -> & Hgood & Hfirst & He).
      exists (a :: good), first, rest. repeat split; auto.
      constructor; [split; assumption | exact Hgood].
    + exists [], a, l. repeat split; [constructor | intros [_ H]; congruence |].
      unfold rejection. destruct (String.eqb_spec a ""); [contradiction | reflexivity].
Qed.

End Validation.

(** C6: an empty list of addresses makes both bulk price methods raise
    [NoPositionsError] (the EmptyInputError of the specification), and the
    record of requests is left as it was: nothing is sent. *)
Theorem empty_list_raises_NoPositionsError (w : Env) (tr : Trace) :
  BirdEyeClient.fetch_prices w [] tr = (Err NoPositionsError, tr) /\
  DexScreenerClient.fetch_prices_dex w [] tr = (Err NoPositionsError, tr) /\
  error_kind NoPositionsError = Some EmptyInputError.
Proof. repeat split. Qed.

(** C5, as the code has it: for an address that fails the check, the
    overview method of the first provider raises [InvalidSolanaAddress];
    the overview method of the second provider raises
    [InvalidSolanaAddress], or [NoPositionsError] when the address is the
    empty string; the batch price method of the second provider, for a
    list containing the address, fails at the first address of the list
    that is empty or fails the check (every address before it is
    non-empty and passes), with [NoPositionsError] when that address is
    the empty string and [InvalidSolanaAddress] naming it otherwise.  In
    every case no request is sent. *)
Theorem invalid_address_raises_before_request
        (w : Env) (address : string) (tr : Trace) :
  is_solana_address w address = false ->
  BirdEyeClient.fetch_token_overview w address tr
    = (Err (InvalidSolanaAddress address), tr) /\
  DexScreenerClient.fetch_token_overview w address tr
    = (Err (if String.eqb address "" then NoPositionsError
            else InvalidSolanaAddress address), tr) /\
  forall token_addresses, In address token_addresses ->
    exists good first rest,
      token_addresses = (good ++ first :: rest)%list /\
      (forall a, In a good -> a <> "" /\ is_solana_address w a = true) /\
      (first = "" \/ is_solana_address w first = false) /\
      DexScreenerClient.fetch_prices_dex w token_addresses tr
        = (Err (if String.eqb first "" then NoPositionsError
                else InvalidSolanaAddress first), tr).
Proof.
  intros Hbad. split; [|split].
  - unfold BirdEyeClient.fetch_token_overview. rewrite Hbad. reflexivity.
  - unfold DexScreenerClient.fetch_token_overview, DexScreenerClient._call_api,
      DexScreenerClient._validate_token_address, bind, lift.
    destruct (String.eqb address ""); [reflexivity|]. rewrite Hbad. reflexivity.
  - intros l Hin.
    destruct (validate_each_first_rejected w l address Hin Hbad)
      as (good & first & rest & Hl & Hgood & Hfirst & He).
    exists good, first, rest. split; [exact Hl|]. split; [|split].
    + intros a Ha. exact (proj1 (Forall_forall _ _) Hgood a Ha).
    + destruct (String.eqb_spec first "") as [->|Hne]; [now left|].
      destruct (is_solana_address w first) eqn:Hf; [|now right].
      exfalso. apply Hfirst. split; assumption.
    + unfold DexScreenerClient.fetch_prices_dex, DexScreenerClient._call_api_bulk,
        bind, lift.
      rewrite (validate_addresses_error w l address Hin Hbad), He. reflexivity.
Qed.

Lemma invalid_address_raises_before_request_witness :
  is_solana_address (sample_env (Err RequestException)) "not-an-address" = false /\
  BirdEyeClient.fetch_token_overview (sample_env (Err RequestException)) "not-an-address" []
    = (Err (InvalidSolanaAddress "not-an-address"), []) /\
  exists good first rest,
    [WSOL; "not-an-address"; ""] = (good ++ first :: rest)%list /\
    (forall a, In a good ->
       a <> "" /\ is_solana_address (sample_env (Err RequestException)) a = true) /\
    (first = "" \/ is_solana_address (sample_env (Err RequestException)) first = false) /\
    DexScreenerClient.fetch_prices_dex (sample_env (Err RequestException))
      [WSOL; "not-an-address"; ""] []
      = (Err (if String.eqb first "" then NoPositionsError
              else InvalidSolanaAddress first), []).
Proof.
  split; [vm_compute; reflexivity|].
  destruct (invalid_address_raises_before_request
              (sample_env (Err RequestException)) "not-an-address" [])
    as (H1 & _ & H3); [vm_compute; reflexivity|].
  split; [exact H1|].
  apply H3. right; left; reflexivity.
Defined.

(** The empty string fails the address check, and the overview method of
    the second provider answers it with [NoPositionsError], whose kind is
    not InvalidAddressError. *)
Lemma dex_overview_empty_address_counterexample :
  is_solana_address (sample_env (Err RequestException)) "" = false /\
  DexScreenerClient.fetch_token_overview (sample_env (Err RequestException)) "" []
    = (Err NoPositionsError, []) /\
  error_kind NoPositionsError <> Some InvalidAddressError.
Proof. repeat split. discriminate. Qed.

(** C2, as the code has it: when the response has status 200 and its
    [pairs] list is empty, the overview method of the second provider
    raises the built-in [IndexError] of [data['pairs'][0]]; there is no
    guard, and the exception has no kind of its own. *)
Theorem empty_pairs_raises_IndexError
        (w : Env) (address : string) (tr : Trace) (d : list (string * json)) :
  DexScreenerClient._validate_token_address w address = Ok tt ->
  send w (single_request address) = Ok (mkResponse 200 (Some (JDict d))) ->
  Py.lookup "pairs" d = Some (JList []) ->
  DexScreenerClient.fetch_token_overview w address tr
    = (Err IndexError, (tr ++ [single_request address])%list) /\
  error_kind IndexError = None.
Proof.
  intros Hv Hs Hp. split; [|reflexivity].
  unfold DexScreenerClient.fetch_token_overview, DexScreenerClient._call_api,
    bind, lift, request.
  rewrite Hv. fold (single_request address). rewrite Hs. cbn.
  unfold DexScreenerClient.overview_of_data. cbn. rewrite Hp. reflexivity.
Qed.

Lemma empty_pairs_raises_IndexError_witness :
  DexScreenerClient.fetch_token_overview
    (sample_env (ok_json (JDict [("pairs", JList [])]))) WSOL []
  = (Err IndexError, [single_request WSOL]).
Proof.
  apply (empty_pairs_raises_IndexError
           (sample_env (ok_json (JDict [("pairs", JList [])]))) WSOL []
           [("pairs", JList [])]);
    vm_compute; reflexivity.
Defined.

(** A status 200 response with an empty [pairs] list: the method raises
    [IndexError], not an exception of kind NoPairsFoundError. *)
Lemma empty_pairs_counterexample :
  exists e tr,
    DexScreenerClient.fetch_token_overview
      (sample_env (ok_json (JDict [("pairs", JList [])]))) WSOL [] = (Err e, tr) /\
    error_kind e <> Some NoPairsFoundError.
Proof.
  exists IndexError, [single_request WSOL]. split; [vm_compute; reflexivity | discriminate].
Qed.

(* ===================================================================== *)
(** * Selection of the largest pool against wrapped SOL *)
(* ===================================================================== *)

Module FloatOrderFacts.

Import FloatOrder.

Lemma SFcompare_rank (a b : spec_float) :
  is_nan a = false -> is_nan b = false ->
  exists c, SFcompare a b = Some c /\
            (c = Lt <-> ltk (rank a) (rank b)) /\
            (c = Eq <-> eqk (rank a) (rank b)).
Proof.
  intros Ha Hb.
  destruct a as [s| s | | s m e], b as [s'| s' | | s' m' e'];
    try discriminate;
    repeat match goal with x : bool |- _ => destruct x end;
    cbn [SFcompare rank ltk eqk CompOpp];
    try change (Pos.compare_cont Eq m m') with (Pos.compare m m');
    try (destruct (Z.compare_spec e e'); destruct (Pos.compare_spec m m'));
    cbn [CompOpp];
    (eexists; split; [reflexivity|]);
    split; split; intros Hside; first [discriminate Hside | reflexivity | lia].
Qed.

Lemma SFltb_not_nan (a b : spec_float) :
  SFltb a b = true -> is_nan a = false /\ is_nan b = false.
Proof. destruct a, b; cbn; auto; discriminate. Qed.

Lemma SFltb_rank (a b : spec_float) :
  is_nan a = false -> is_nan b = false ->
  (SFltb a b = true <-> ltk (rank a) (rank b)).
Proof.
  intros Ha Hb. destruct (SFcompare_rank a b Ha Hb) as (c & Hc & Hlt & Heq).
  unfold SFltb. rewrite Hc. rewrite <- Hlt.
  destruct c; split; intros; congruence.
Qed.

Lemma SFleb_rank (a b : spec_float) :
  is_nan a = false -> is_nan b = false ->
  (SFleb a b = true <-> ltk (rank a) (rank b) \/ eqk (rank a) (rank b)).
Proof.
  intros Ha Hb. destruct (SFcompare_rank a b Ha Hb) as (c & Hc & Hlt & Heq).
  unfold SFleb. rewrite Hc. rewrite <- Hlt, <- Heq.
  destruct c; split; intros; auto; try congruence.
  destruct H; congruence.
Qed.

Ltac by_rank :=
  repeat match goal with
         | H : SFltb ?a ?b = true |- _ =>
             apply SFltb_rank in H; [|assumption|assumption]
         | H : SFltb ?a ?b = false |- _ =>
             apply not_true_iff_false in H;
             rewrite SFltb_rank in H by assumption
         | H : SFleb ?a ?b = true |- _ =>
             apply SFleb_rank in H; [|assumption|assumption]
         | |- SFltb ?a ?b = true => apply SFltb_rank; [assumption|assumption|]
         | |- SFleb ?a ?b = true => apply SFleb_rank; [assumption|assumption|]
         end;
  repeat match goal with
         | H : context [rank ?a] |- _ => destruct (rank a) as [[? ?] ?]
         | |- context [rank ?a] => destruct (rank a) as [[? ?] ?]
         end;
  unfold ltk, eqk in *; lia.

Section Facts.
Variables a b c : spec_float.
Hypothesis Ha : is_nan a = false.
Hypothesis Hb : is_nan b = false.
Hypothesis Hc : is_nan c = false.



Lemma SFltb_trans : SFltb a b = true -> SFltb b c = true -> SFltb a c = true.
Proof. intros H1 H2. by_rank. Qed.



Lemma SFleb_trans : SFleb a b = true -> SFleb b c = true -> SFleb a c = true.
Proof. intros H1 H2. by_rank. Qed.
End Facts.

End FloatOrderFacts.

Section LargestPool.

Variable w : Env.
Variable address : string.

Import FloatOrder FloatOrderFacts.

Lemma entry_matches_is_sol_pool (entry : json) (b : bool) :
  DexScreenerClient.entry_matches w entry address = Ok b ->
  is_sol_pool w address entry = b.
Proof.
  unfold DexScreenerClient.entry_matches, is_sol_pool, sub_address, Py.get, Py.getitem.
  destruct entry as [| | | | |l|d]; cbn; try discriminate.
  destruct (Py.lookup "baseToken" d) as [[| | | | | |t]|]; cbn; try discriminate.
  - destruct (Py.lookup "address" t) as [ba|]; cbn.
    + destruct (Py.eq_str ba address); cbn.
      * destruct (Py.lookup "quoteToken" d) as [[| | | | | |q]|]; cbn; try discriminate.
        destruct (Py.lookup "address" q); cbn; [congruence | discriminate].
      * destruct (match Py.lookup "quoteToken" d with
                  | Some (JDict t0) => Py.lookup "address" t0
                  | _ => None
                  end); congruence.
    + congruence.
  - congruence.
Qed.

Lemma pair_shape_evaluates (entry : json) :
  pair_shape address entry ->
  exists b, DexScreenerClient.entry_matches w entry address = Ok b.
Proof.
  intros (d & -> & Hbase).
  unfold DexScreenerClient.entry_matches, Py.get, Py.getitem. cbn [rbind].
  destruct Hbase as [Hnone|(t & Ht & Hquote)].
  - rewrite Hnone. cbn. eauto.
  - rewrite Ht. cbn [rbind].
    destruct (Py.lookup "address" t) as [b|] eqn:Hb.
    + destruct (Py.eq_str b address) eqn:He; [|eauto].
      destruct Hquote as (q & qa & Hq & Hqa); [eauto|].
      rewrite Hq. cbn [rbind]. rewrite Hqa. cbn [rbind]. eauto.
    + cbn. eauto.
Qed.



End LargestPool.




(** C3, as the code has it: when every entry has the shape the scan
    relies on and no entry matches, [find_largest_pool_with_sol] returns
    the empty mapping and raises nothing. *)
Theorem find_largest_pool_with_sol_no_match_returns_empty
        (w : Env) (token_pairs : list json) (address : string) :
  (forall e, In e token_pairs -> pair_shape address e) ->
  (forall e, In e token_pairs -> is_sol_pool w address e = false) ->
  DexScreenerClient.find_largest_pool_with_sol w token_pairs address = Ok (JDict []).
Proof.
  intros Hshape Hnone. unfold DexScreenerClient.find_largest_pool_with_sol.
  generalize PyFloat.neg_one as bl. generalize (JDict []) as best.
  induction token_pairs as [|e rest IH]; intros best bl; [reflexivity|].
  cbn [DexScreenerClient.largest_loop].
  destruct (pair_shape_evaluates w address e (Hshape e (or_introl eq_refl))) as [b Hb].
  pose proof (entry_matches_is_sol_pool w address e b Hb) as Hp.
  rewrite (Hnone e (or_introl eq_refl)) in Hp. subst b.
  rewrite Hb. cbn [rbind]. apply IH; intros; [apply Hshape | apply Hnone]; now right.
Qed.

Lemma find_largest_pool_with_sol_no_match_returns_empty_witness :
  DexScreenerClient.find_largest_pool_with_sol (sample_env (Err RequestException))
    [pool USDC USDC 900; pool WSOL USDC 5; JDict []] USDC = Ok (JDict []).
Proof.
  apply (find_largest_pool_with_sol_no_match_returns_empty
           (sample_env (Err RequestException))
           [pool USDC USDC 900; pool WSOL USDC 5; JDict []] USDC).
  - intros e [<-|[<-|[<-|[]]]].
    + eexists; split; [reflexivity|]. right. eexists; split; [reflexivity|].
      intros _. eexists; eexists; split; reflexivity.
    + eexists; split; [reflexivity|]. right. eexists; split; [reflexivity|].
      intros _. eexists; eexists; split; reflexivity.
    + eexists; split; [reflexivity|]. left. reflexivity.
  - intros e [<-|[<-|[<-|[]]]]; vm_compute; reflexivity.
Defined.

(** Two lists without a matching entry on which the scan raises: one
    whose entry has a null [baseToken], and one whose entry has the base
    token asked for and no [quoteToken], read with a subscript where the
    base token and the liquidity are read with [get]. *)
Lemma find_largest_pool_with_sol_raises_counterexample :
  let env := sample_env (Err RequestException) in
  let null_base := JDict [("baseToken", JNull)] in
  let no_quote := JDict [("baseToken", JDict [("address", JStr USDC)])] in
  is_sol_pool env USDC null_base = false /\
  DexScreenerClient.find_largest_pool_with_sol env [null_base] USDC = Err AttributeError /\
  is_sol_pool env USDC no_quote = false /\
  DexScreenerClient.find_largest_pool_with_sol env [no_quote] USDC
    = Err (KeyError (JStr "quoteToken")).
Proof. cbn zeta. repeat split. Qed.

(* ===================================================================== *)
(** * Facts about dictionaries *)
(* ===================================================================== *)

Lemma spec_float_eqb_eq (a b : spec_float) : spec_float_eqb a b = true <-> a = b.
Proof.
  destruct a, b; cbn; try (split; [discriminate | congruence]);
    try (rewrite Bool.eqb_true_iff; split; congruence).
  - tauto.
  - rewrite !andb_true_iff, Bool.eqb_true_iff, Pos.eqb_eq, Z.eqb_eq.
    split; [intros [[-> ->] ->]; reflexivity | intros H; inversion H; auto].
Qed.

Lemma pykey_eqb_eq (a b : pykey) : pykey_eqb a b = true <-> a = b.
Proof.
  destruct a, b; cbn; try (split; [discriminate | congruence]).
  - tauto.
  - rewrite Z.eqb_eq. split; congruence.
  - rewrite spec_float_eqb_eq. split; congruence.
  - rewrite String.eqb_eq. split; congruence.
Qed.

Lemma pykey_eqb_refl (k : pykey) : pykey_eqb k k = true.
Proof. now apply pykey_eqb_eq. Qed.

Lemma pykey_eqb_neq (a b : pykey) : a <> b -> pykey_eqb a b = false.
Proof.
  intros H. destruct (pykey_eqb a b) eqn:E; [|reflexivity].
  apply pykey_eqb_eq in E. contradiction.
Qed.

Module PyDictFacts.

Section Facts.
Context {V : Type}.
Implicit Types (d : PyDict.t V) (k : pykey) (v : V).

Lemma get_set_same k v d : PyDict.get k (PyDict.set k v d) = Some v.
Proof.
  induction d as [|[k' v'] d IH]; cbn.
  - now rewrite pykey_eqb_refl.
  - destruct (pykey_eqb k' k) eqn:E; cbn; rewrite E; [reflexivity | exact IH].
Qed.

Lemma get_set_other k k' v d :
  k <> k' -> PyDict.get k' (PyDict.set k v d) = PyDict.get k' d.
Proof.
  intros Hne. induction d as [|[k0 v0] d IH]; cbn.
  - now rewrite (pykey_eqb_neq k k' Hne).
  - destruct (pykey_eqb k0 k) eqn:E; cbn.
    + apply pykey_eqb_eq in E; subst k0.
      now rewrite (pykey_eqb_neq k k' Hne).
    + destruct (pykey_eqb k0 k'); [reflexivity | exact IH].
Qed.

Lemma keys_set k k' v d :
  In k' (PyDict.keys (PyDict.set k v d)) <-> k' = k \/ In k' (PyDict.keys d).
Proof.
  unfold PyDict.keys. induction d as [|[k0 v0] d IH]; cbn.
  - intuition congruence.
  - destruct (pykey_eqb k0 k) eqn:E; cbn.
    + apply pykey_eqb_eq in E; subst k0. intuition congruence.
    + rewrite IH. intuition congruence.
Qed.

Lemma get_Some_keys k v d : PyDict.get k d = Some v -> In k (PyDict.keys d).
Proof.
  unfold PyDict.keys. induction d as [|[k0 v0] d IH]; cbn; [discriminate|].
  destruct (pykey_eqb k0 k) eqn:E.
  - apply pykey_eqb_eq in E. intros _. now left.
  - intros H. right. now apply IH.
Qed.

Lemma keys_get_Some k d : In k (PyDict.keys d) -> exists v, PyDict.get k d = Some v.
Proof.
  unfold PyDict.keys. induction d as [|[k0 v0] d IH]; cbn; [contradiction|].
  intros [->|Hin].
  - rewrite pykey_eqb_refl. eauto.
  - destruct (pykey_eqb k0 k); eauto.
Qed.
End Facts.

End PyDictFacts.

(* ===================================================================== *)
(** * Running the bulk price methods *)
(* ===================================================================== *)

Section BulkPrices.

Variable w : Env.

(** What a successful call of [fetch_prices] went through. *)
Lemma fetch_prices_run (token_addresses : list string) (tr : Trace)
      (top : list (string * json)) :
  token_addresses <> [] ->
  send w (multi_price_request w token_addresses)
    = Ok (mkResponse 200 (Some (JDict top))) ->
  Py.truthy (match Py.lookup "success" top with Some v => v | None => JNull end) = true ->
  BirdEyeClient.fetch_prices w token_addresses tr
  = (BirdEyeClient.prices_loop w (JDict top) token_addresses PyDict.empty,
     (tr ++ [multi_price_request w token_addresses])%list).
Proof.
  intros Hne Hs Ht. destruct token_addresses as [|a l]; [congruence|].
  unfold BirdEyeClient.fetch_prices, BirdEyeClient._make_api_call, bind, lift, request.
  cbn [Str.upper Str.upper_char String.eqb].
  change (mkRequest "GET" (BirdEyeClient.multi_price_url (a :: l)) (BirdEyeClient._headers w))
    with (multi_price_request w (a :: l)).
  cbn. rewrite Hs. cbn. rewrite Ht. reflexivity.
Qed.

Lemma fetch_prices_inv (token_addresses : list string) (tr tr' : Trace)
      (m : PyDict.t PriceInfo) :
  BirdEyeClient.fetch_prices w token_addresses tr = (Ok m, tr') ->
  exists data, BirdEyeClient.prices_loop w data token_addresses PyDict.empty = Ok m.
Proof.
  destruct token_addresses as [|a l]; [discriminate|].
  unfold BirdEyeClient.fetch_prices, BirdEyeClient._make_api_call, bind, lift, request.
  cbn [Str.upper Str.upper_char String.eqb]. cbn.
  destruct (send w _) as [resp|e]; [|discriminate].
  destruct (negb (status_code resp =? 200)); [discriminate|].
  destruct (json_of resp) as [data|e]; [|discriminate].
  destruct (Py.get data "success" JNull) as [s|e]; [|discriminate].
  destruct (negb (Py.truthy s)); [discriminate|].
  intros H. inversion H. eauto.
Qed.

Lemma birdeye_loop_keys (data : json) (token_addresses : list string) :
  forall d m,
    BirdEyeClient.prices_loop w data token_addresses d = Ok m ->
    forall k, In k (PyDict.keys m) ->
              In k (PyDict.keys d) \/ exists a, In a token_addresses /\ k = KStr a.
Proof.
  induction token_addresses as [|a l IH]; intros d m Hrun k Hk; cbn in Hrun.
  - inversion Hrun; subst. now left.
  - destruct (BirdEyeClient.token_data_of data a) as [td|e]; [|discriminate].
    cbn in Hrun. destruct (Py.truthy td).
    + destruct (BirdEyeClient.price_info w td) as [info|e]; [|discriminate].
      cbn in Hrun. destruct (IH _ _ Hrun k Hk) as [Hin|(a' & Ha' & ->)].
      * apply PyDictFacts.keys_set in Hin. destruct Hin as [->|Hin]; [|now left].
        right. exists a. split; [now left | reflexivity].
      * right. exists a'. split; [now right | reflexivity].
    + destruct (IH _ _ Hrun k Hk) as [Hin|(a' & Ha' & ->)]; [now left|].
      right. exists a'. split; [now right | reflexivity].
Qed.

(** What a successful call of [fetch_prices_dex] went through. *)
Lemma fetch_prices_dex_inv (token_addresses : list string) (tr tr' : Trace)
      (m : PyDict.t PriceInfo) :
  DexScreenerClient.fetch_prices_dex w token_addresses tr = (Ok m, tr') ->
  exists resp data ps pairs,
    send w (bulk_request token_addresses) = Ok resp /\
    json_of resp = Ok data /\
    Py.getitem data "pairs" = Ok ps /\
    Py.iter ps = Ok pairs /\
    DexScreenerClient.prices_loop w pairs PyDict.empty = Ok m.
Proof.
  unfold DexScreenerClient.fetch_prices_dex, DexScreenerClient._call_api_bulk,
    bind, lift, request.
  destruct (DexScreenerClient._validate_token_addresses w token_addresses); [|discriminate].
  fold (bulk_request token_addresses).
  destruct (send w (bulk_request token_addresses)) as [resp|e]; [|discriminate].
  destruct (DexScreenerClient._validate_response resp); [|discriminate].
  destruct (json_of resp) as [data|e] eqn:Hj; [|discriminate].
  unfold DexScreenerClient.prices_of_data.
  destruct (Py.getitem data "pairs") as [ps|e] eqn:Hp; [|discriminate]. cbn [rbind].
  destruct (Py.iter ps) as [pairs|e] eqn:Hi; [|discriminate]. cbn [rbind].
  intros H. inversion H. exists resp, data, ps, pairs. auto.
Qed.

Lemma fetch_prices_dex_run (token_addresses : list string) (tr : Trace)
      (data ps : json) (pairs : list json) :
  DexScreenerClient._validate_token_addresses w token_addresses = Ok tt ->
  send w (bulk_request token_addresses) = Ok (mkResponse 200 (Some data)) ->
  Py.getitem data "pairs" = Ok ps ->
  Py.iter ps = Ok pairs ->
  DexScreenerClient.fetch_prices_dex w token_addresses tr
  = (DexScreenerClient.prices_loop w pairs PyDict.empty,
     (tr ++ [bulk_request token_addresses])%list).
Proof.
  intros Hv Hs Hp Hi.
  unfold DexScreenerClient.fetch_prices_dex, DexScreenerClient._call_api_bulk,
    bind, lift, request.
  rewrite Hv. fold (bulk_request token_addresses). rewrite Hs. cbn.
  unfold DexScreenerClient.prices_of_data. rewrite Hp. cbn [rbind]. rewrite Hi.
  reflexivity.
Qed.

Lemma dex_loop_keys (pairs : list json) :
  forall d m,
    DexScreenerClient.prices_loop w pairs d = Ok m ->
    forall k, In k (PyDict.keys m) <->
              In k (PyDict.keys d) \/
              exists p info, In p pairs /\ DexScreenerClient.price_entry w p = Ok (k, info).
Proof.
  induction pairs as [|p l IH]; intros d m Hrun k; cbn in Hrun.
  - inversion Hrun; subst. split; [now left|]. intros [H|(p & i & [] & _)]; exact H.
  - destruct (DexScreenerClient.price_entry w p) as [[k0 i0]|e] eqn:Hp; [|discriminate].
    cbn in Hrun. rewrite (IH _ _ Hrun k), PyDictFacts.keys_set. split.
    + intros [[->|Hin]|(p' & i' & Hin & He)].
      * right. exists p, i0. split; [now left | exact Hp].
      * now left.
      * right. exists p', i'. split; [now right | exact He].
    + intros [Hin|(p' & i' & [<-|Hin] & He)].
      * left. now right.
      * left. left. congruence.
      * right. eauto.
Qed.

End BulkPrices.

(** C1, as the code has it: the keys of the mapping returned by
    [fetch_prices] are requested addresses; the keys of the mapping
    returned by [fetch_prices_dex] are exactly the base-token addresses
    of the pairs in the response, requested or not. *)
Theorem bulk_price_keys
        (w : Env) (token_addresses : list string) (tr tr' : Trace)
        (m : PyDict.t PriceInfo) :
  (BirdEyeClient.fetch_prices w token_addresses tr = (Ok m, tr') ->
   forall k, In k (PyDict.keys m) -> exists a, In a token_addresses /\ k = KStr a) /\
  (DexScreenerClient.fetch_prices_dex w token_addresses tr = (Ok m, tr') ->
   exists resp data ps pairs,
     send w (bulk_request token_addresses) = Ok resp /\
     json_of resp = Ok data /\
     Py.getitem data "pairs" = Ok ps /\
     Py.iter ps = Ok pairs /\
     forall k, In k (PyDict.keys m) <->
               exists p info, In p pairs /\
                              DexScreenerClient.price_entry w p = Ok (k, info)).
Proof.
  split.
  - intros Hrun k Hk.
    destruct (fetch_prices_inv w _ _ _ _ Hrun) as [data Hloop].
    destruct (birdeye_loop_keys w data token_addresses _ _ Hloop k Hk) as [[]|H].
    exact H.
  - intros Hrun.
    destruct (fetch_prices_dex_inv w _ _ _ _ Hrun) as (resp & data & ps & pairs & Hs & Hj & Hp & Hi & Hloop).
    exists resp, data, ps, pairs. repeat (split; [assumption|]).
    intros k. rewrite (dex_loop_keys w pairs _ _ Hloop k). cbn. tauto.
Qed.

Lemma bulk_price_keys_witness :
  BirdEyeClient.fetch_prices (sample_env (ok_json token1_response)) ["TOKEN1"; "TOKEN2"] []
  = (Ok [(KStr "TOKEN1",
          mkPriceInfo (PyDecimal.Finite false 123 (-2)) (PyDecimal.Finite false 1000 0))],
     [multi_price_request (sample_env (ok_json token1_response)) ["TOKEN1"; "TOKEN2"]]) /\
  exists a, In a ["TOKEN1"; "TOKEN2"] /\ KStr "TOKEN1" = KStr a.
Proof.
  split; [reflexivity|].
  apply (proj1 (bulk_price_keys (sample_env (ok_json token1_response))
                  ["TOKEN1"; "TOKEN2"] []
                  [multi_price_request (sample_env (ok_json token1_response))
                     ["TOKEN1"; "TOKEN2"]]
                  [(KStr "TOKEN1",
                    mkPriceInfo (PyDecimal.Finite false 123 (-2))
                                (PyDecimal.Finite false 1000 0))])
               eq_refl (KStr "TOKEN1")).
  left. reflexivity.
Defined.

(** A request for the wrapped-SOL mint answered with a pair whose base
    token is another mint: the returned mapping has that other mint as a
    key, which was not requested. *)
Lemma fetch_prices_dex_unrequested_key_counterexample :
  let env := sample_env (ok_json (JDict [("pairs", JList [mk_pair USDC WSOL "0.5" (JInt 10)])])) in
  [WSOL] <> [] /\
  Forall (fun a => is_solana_address env a = true) [WSOL] /\
  exists m tr,
    DexScreenerClient.fetch_prices_dex env [WSOL] [] = (Ok m, tr) /\
    ~ (forall k, In k (PyDict.keys m) -> exists a, In a [WSOL] /\ k = KStr a).
Proof.
  cbn zeta. split; [discriminate|]. split; [repeat constructor|].
  eexists; eexists. split; [vm_compute; reflexivity|].
  intros H. destruct (H (KStr USDC) (or_introl eq_refl)) as (a & [<-|[]] & Hk).
  discriminate Hk.
Qed.

(** C7: in [fetch_prices_dex], the value stored under a key is the
    [PriceInfo] built from the last pair of the response with that
    base-token address, whatever the earlier pairs with the same address
    held. *)
Theorem fetch_prices_dex_last_pair_wins
        (w : Env) (token_addresses : list string) (tr : Trace)
        (data ps : json) (before after : list json) (pair_ : json)
        (k : pykey) (info : PriceInfo) :
  DexScreenerClient._validate_token_addresses w token_addresses = Ok tt ->
  send w (bulk_request token_addresses) = Ok (mkResponse 200 (Some data)) ->
  Py.getitem data "pairs" = Ok ps ->
  Py.iter ps = Ok (before ++ pair_ :: after)%list ->
  (forall p, In p (before ++ pair_ :: after)%list ->
             exists kv, DexScreenerClient.price_entry w p = Ok kv) ->
  DexScreenerClient.price_entry w pair_ = Ok (k, info) ->
  (forall p k' info', In p after ->
                      DexScreenerClient.price_entry w p = Ok (k', info') -> k' <> k) ->
  exists m,
    DexScreenerClient.fetch_prices_dex w token_addresses tr
      = (Ok m, (tr ++ [bulk_request token_addresses])%list) /\
    PyDict.get k m = Some info.
Proof.
  intros Hv Hs Hp Hi Hall Hpair Hafter.
  rewrite (fetch_prices_dex_run w _ tr _ _ _ Hv Hs Hp Hi).
  assert (Hrest : forall l d,
            (forall p, In p l -> exists kv, DexScreenerClient.price_entry w p = Ok kv) ->
            (forall p k' info', In p l ->
               DexScreenerClient.price_entry w p = Ok (k', info') -> k' <> k) ->
            exists m, DexScreenerClient.prices_loop w l d = Ok m /\
                      PyDict.get k m = PyDict.get k d).
  { induction l as [|p l IH]; intros d Hok Hne; cbn.
    - eauto.
    - destruct (Hok p (or_introl eq_refl)) as [[k' i'] Hk']. rewrite Hk'. cbn.
      destruct (IH (PyDict.set k' i' d)) as (m & Hm & Hg).
      + intros; apply Hok; now right.
      + intros; eapply Hne; eauto; now right.
      + exists m. split; [exact Hm|]. rewrite Hg.
        apply PyDictFacts.get_set_other. eapply Hne; eauto. now left. }
  assert (Hfront : forall l d,
            (forall p, In p (l ++ pair_ :: after)%list ->
               exists kv, DexScreenerClient.price_entry w p = Ok kv) ->
            exists m, DexScreenerClient.prices_loop w (l ++ pair_ :: after)%list d = Ok m /\
                      PyDict.get k m = Some info).
  { induction l as [|p l IH]; intros d Hok; cbn.
    - rewrite Hpair. cbn.
      destruct (Hrest after (PyDict.set k info d)) as (m & Hm & Hg).
      + intros; apply Hok; now right.
      + exact Hafter.
      + exists m. split; [exact Hm|]. rewrite Hg. apply PyDictFacts.get_set_same.
    - destruct (Hok p (or_introl eq_refl)) as [[k' i'] Hk']. rewrite Hk'. cbn.
      apply IH. intros; apply Hok; now right. }
  destruct (Hfront before PyDict.empty Hall) as (m & Hm & Hg).
  exists m. rewrite Hm. split; [reflexivity | exact Hg].
Qed.

Lemma fetch_prices_dex_last_pair_wins_witness :
  exists m,
    DexScreenerClient.fetch_prices_dex
      (sample_env (ok_json (JDict [("pairs",
         JList [mk_pair USDC WSOL "0.5" (JInt 900); mk_pair USDC WSOL "0.7" (JInt 10)])])))
      [USDC] []
    = (Ok m, ([] ++ [bulk_request [USDC]])%list) /\
    PyDict.get (KStr USDC) m
    = Some (mkPriceInfo (PyDecimal.Finite false 7 (-1)) (PyDecimal.Finite false 10 0)).
Proof.
  apply (fetch_prices_dex_last_pair_wins
           (sample_env (ok_json (JDict [("pairs",
              JList [mk_pair USDC WSOL "0.5" (JInt 900); mk_pair USDC WSOL "0.7" (JInt 10)])])))
           [USDC] []
           (JDict [("pairs",
              JList [mk_pair USDC WSOL "0.5" (JInt 900); mk_pair USDC WSOL "0.7" (JInt 10)])])
           (JList [mk_pair USDC WSOL "0.5" (JInt 900); mk_pair USDC WSOL "0.7" (JInt 10)])
           [mk_pair USDC WSOL "0.5" (JInt 900)] [] (mk_pair USDC WSOL "0.7" (JInt 10))).
  - vm_compute; reflexivity.
  - reflexivity.
  - reflexivity.
  - reflexivity.
  - intros p [<-|[<-|[]]]; eexists; vm_compute; reflexivity.
  - vm_compute; reflexivity.
  - intros p k' info' [].
Defined.

(* ===================================================================== *)
(** * The result of [fetch_prices], address by address *)
(* ===================================================================== *)

Section BirdEyeLoop.

Variable w : Env.
Variable data : json.

Lemma birdeye_loop_spec (token_addresses : list string) :
  forall d,
    (forall a, In a token_addresses -> readable w data a) ->
    exists m,
      BirdEyeClient.prices_loop w data token_addresses d = Ok m /\
      (forall a, In a token_addresses ->
                 PyDict.get (KStr a) m
                 = match birdeye_entry w data a with
                   | Some info => Some info
                   | None => PyDict.get (KStr a) d
                   end) /\
      (forall k, (forall a, In a token_addresses -> k <> KStr a) ->
                 PyDict.get k m = PyDict.get k d).
Proof.
  induction token_addresses as [|a0 l IH]; intros d Hok.
  - exists d. split; [reflexivity|]. split; [intros a []|reflexivity].
  - destruct (Hok a0 (or_introl eq_refl)) as (td & Htd & Hinfo).
    assert (Hl : forall a, In a l -> readable w data a) by (intros; apply Hok; now right).
    cbn [BirdEyeClient.prices_loop]. rewrite Htd. cbn [rbind].
    destruct (Py.truthy td) eqn:Ht.
    + destruct (Hinfo eq_refl) as [info Hi]. rewrite Hi. cbn [rbind].
      destruct (IH (PyDict.set (KStr a0) info d) Hl) as (m & Hm & Hin & Hout).
      exists m. split; [exact Hm|]. split.
      * intros a Ha. destruct (in_dec string_dec a l) as [Hal|Hal].
        -- rewrite (Hin a Hal). destruct (birdeye_entry w data a) eqn:He; [reflexivity|].
           apply PyDictFacts.get_set_other. intros Heq. inversion Heq; subst a0.
           unfold birdeye_entry in He. rewrite Htd, Ht, Hi in He. discriminate.
        -- destruct Ha as [<-|Ha]; [|contradiction].
           rewrite Hout by (intros a Ha Heq; inversion Heq; subst; contradiction).
           unfold birdeye_entry. rewrite Htd, Ht, Hi.
           apply PyDictFacts.get_set_same.
      * intros k Hk. rewrite Hout by (intros; apply Hk; now right).
        apply PyDictFacts.get_set_other. intros Heq. eapply Hk; [now left | eauto].
    + destruct (IH d Hl) as (m & Hm & Hin & Hout).
      exists m. split; [exact Hm|]. split.
      * intros a Ha. destruct (in_dec string_dec a l) as [Hal|Hal]; [now apply Hin|].
        destruct Ha as [<-|Ha]; [|contradiction].
        rewrite Hout by (intros a Ha Heq; inversion Heq; subst; contradiction).
        unfold birdeye_entry. rewrite Htd, Ht. reflexivity.
      * intros k Hk. apply Hout. intros; apply Hk; now right.
Qed.

(** Addresses with nothing to report leave the loop as it is. *)
Lemma birdeye_loop_skips_no_data (token_addresses : list string) :
  forall d,
    BirdEyeClient.prices_loop w data token_addresses d
    = BirdEyeClient.prices_loop w data
        (filter (fun a => negb (no_data data a)) token_addresses) d.
Proof.
  induction token_addresses as [|a l IH]; intros d; [reflexivity|].
  cbn [filter]. unfold no_data at 1.
  destruct (BirdEyeClient.token_data_of data a) as [td|e] eqn:Htd.
  - destruct (Py.truthy td) eqn:Ht; cbn [negb BirdEyeClient.prices_loop];
      rewrite Htd; cbn [rbind]; rewrite ?Ht.
    + destruct (BirdEyeClient.price_info w td); cbn [rbind]; [apply IH | reflexivity].
    + apply IH.
  - cbn [negb BirdEyeClient.prices_loop]. rewrite Htd. reflexivity.
Qed.

End BirdEyeLoop.

Lemma token_data_of_mapping (top dd : list (string * json)) (a : string) :
  Py.lookup "data" top = Some (JDict dd) ->
  BirdEyeClient.token_data_of (JDict top) a = Ok (field_or a dd (JDict [])).
Proof.
  intros H. unfold BirdEyeClient.token_data_of, field_or. cbn [Py.get].
  rewrite H. reflexivity.
Qed.

Lemma token_data_of_absent (top : list (string * json)) (a : string) :
  Py.lookup "data" top = None ->
  BirdEyeClient.token_data_of (JDict top) a = Ok (JDict []).
Proof.
  intros H. unfold BirdEyeClient.token_data_of. cbn [Py.get]. rewrite H. reflexivity.
Qed.

Lemma price_info_mapping (w : Env) (td : list (string * json)) :
  BirdEyeClient.price_info w (JDict td)
  = (value <- Decimal w (field_or "price" td (JStr "0")) ;;
     liquidity <- Decimal w (field_or "liquidity" td (JStr "0")) ;;
     Ok (mkPriceInfo value liquidity))%result.
Proof. reflexivity. Qed.

Lemma usable_entry_readable (w : Env) (top dd : list (string * json)) (a : string) :
  Py.lookup "data" top = Some (JDict dd) ->
  usable_entry w (field_or a dd (JDict [])) ->
  readable w (JDict top) a.
Proof.
  intros Hd Hu. exists (field_or a dd (JDict [])).
  split; [now apply token_data_of_mapping|].
  intros Ht. destruct Hu as [Hf|(td & v & l & Htd & Hv & Hl)]; [congruence|].
  exists (mkPriceInfo v l). rewrite Htd, price_info_mapping, Hv. cbn [rbind].
  rewrite Hl. reflexivity.
Qed.

(** The loop leaves out the addresses whose entry in the mapping under
    ["data"] is missing or empty. *)
Lemma birdeye_loop_skips_empty (w : Env) (top dd : list (string * json))
      (token_addresses : list string) (d : PyDict.t PriceInfo) :
  Py.lookup "data" top = Some (JDict dd) ->
  BirdEyeClient.prices_loop w (JDict top) token_addresses d
  = BirdEyeClient.prices_loop w (JDict top)
      (filter (fun a => Py.truthy (field_or a dd (JDict []))) token_addresses) d.
Proof.
  intros Hd. rewrite birdeye_loop_skips_no_data. f_equal.
  apply filter_ext. intros a. unfold no_data.
  rewrite (token_data_of_mapping top dd a Hd). apply negb_involutive.
Qed.

(** C8, as the code has it: on a response with status 200 and a true
    success flag whose ["data"] is a mapping in which the entry of every
    requested address is missing, empty, or a mapping whose price and
    liquidity fields, ["0"] standing for an absent one, are values
    [Decimal] accepts, [fetch_prices] raises nothing and returns a mapping
    in which every requested address with a non-empty entry has the
    [PriceInfo] made of [Decimal] of its price and of its liquidity, and
    every requested address with a missing or empty entry is absent.  For
    the response of the example and a request for [TOKEN1] and one other
    address, the mapping has the single entry of [TOKEN1], with value 1.23
    and liquidity 1000. *)
Theorem fetch_prices_builds_price_info :
  (forall (w : Env) (token_addresses : list string) (tr : Trace)
          (top dd : list (string * json)),
      token_addresses <> [] ->
      send w (multi_price_request w token_addresses)
        = Ok (mkResponse 200 (Some (JDict top))) ->
      Py.truthy (success_flag top) = true ->
      Py.lookup "data" top = Some (JDict dd) ->
      (forall a, In a token_addresses -> usable_entry w (field_or a dd (JDict []))) ->
      exists m,
        BirdEyeClient.fetch_prices w token_addresses tr
          = (Ok m, (tr ++ [multi_price_request w token_addresses])%list) /\
        forall a,
          In a token_addresses ->
          (Py.truthy (field_or a dd (JDict [])) = true ->
           exists td v l,
             field_or a dd (JDict []) = JDict td /\
             Decimal w (field_or "price" td (JStr "0")) = Ok v /\
             Decimal w (field_or "liquidity" td (JStr "0")) = Ok l /\
             PyDict.get (KStr a) m = Some (mkPriceInfo v l)) /\
          (Py.truthy (field_or a dd (JDict [])) = false ->
           PyDict.get (KStr a) m = None)) /\
  (forall (w : Env) (other : string) (tr : Trace),
      other <> "TOKEN1" ->
      send w (multi_price_request w ["TOKEN1"; other])
        = Ok (mkResponse 200 (Some token1_response)) ->
      BirdEyeClient.fetch_prices w ["TOKEN1"; other] tr
      = (Ok [(KStr "TOKEN1",
              mkPriceInfo (PyDecimal.Finite false 123 (-2))
                          (PyDecimal.Finite false 1000 0))],
         (tr ++ [multi_price_request w ["TOKEN1"; other]])%list)).
Proof.
  split.
  - intros w token_addresses tr top dd Hne Hs Ht Hd Hok.
    rewrite (fetch_prices_run w _ tr top Hne Hs Ht).
    destruct (birdeye_loop_spec w (JDict top) token_addresses PyDict.empty)
      as (m & Hm & Hin & _).
    { intros a Ha. apply (usable_entry_readable w top dd a Hd). now apply Hok. }
    exists m. rewrite Hm. split; [reflexivity|].
    intros a Ha. rewrite (Hin a Ha). unfold birdeye_entry.
    rewrite (token_data_of_mapping top dd a Hd).
    split; intros Htr; rewrite Htr; [|reflexivity].
    destruct (Hok a Ha) as [Hf|(td & v & l & Htd & Hv & Hl)]; [congruence|].
    exists td, v, l. rewrite Htd, price_info_mapping, Hv. cbn [rbind]. rewrite Hl.
    cbn [rbind]. repeat split; reflexivity.
  - intros w other tr Hne Hs.
    assert (Hn : ["TOKEN1"; other] <> []) by discriminate.
    rewrite (fetch_prices_run w _ tr _ Hn Hs eq_refl).
    f_equal. cbn [BirdEyeClient.prices_loop].
    assert (H1 : BirdEyeClient.token_data_of token1_response "TOKEN1"
                 = Ok (JDict [("price", JStr "1.23"); ("liquidity", JStr "1000")]))
      by reflexivity.
    assert (H2 : BirdEyeClient.token_data_of token1_response other = Ok (JDict [])).
    { apply not_eq_sym in Hne. apply String.eqb_neq in Hne.
      unfold BirdEyeClient.token_data_of.
      change (Py.get token1_response "data" (JDict []))
        with (Ok (JDict [("TOKEN1", JDict [("price", JStr "1.23");
                                            ("liquidity", JStr "1000")])])).
      cbn [rbind Py.get Py.lookup]. rewrite Hne. reflexivity. }
    unfold token1_response in H1, H2. rewrite H1. cbn [rbind Py.truthy].
    change (BirdEyeClient.price_info w
              (JDict [("price", JStr "1.23"); ("liquidity", JStr "1000")]))
      with (Ok (mkPriceInfo (PyDecimal.Finite false 123 (-2))
                            (PyDecimal.Finite false 1000 0))).
    cbn [rbind]. rewrite H2. reflexivity.
Qed.

Lemma fetch_prices_builds_price_info_witness :
  BirdEyeClient.fetch_prices (sample_env (ok_json token1_response)) ["TOKEN1"; "TOKEN2"] []
  = (Ok [(KStr "TOKEN1",
          mkPriceInfo (PyDecimal.Finite false 123 (-2)) (PyDecimal.Finite false 1000 0))],
     ([] ++ [multi_price_request (sample_env (ok_json token1_response))
               ["TOKEN1"; "TOKEN2"]])%list) /\
  exists m,
    BirdEyeClient.fetch_prices (sample_env (ok_json token1_response)) ["TOKEN1"; "TOKEN2"] []
    = (Ok m, ([] ++ [multi_price_request (sample_env (ok_json token1_response))
                       ["TOKEN1"; "TOKEN2"]])%list) /\
    PyDict.get (KStr "TOKEN2") m = None.
Proof.
  split.
  - apply (proj2 fetch_prices_builds_price_info
                 (sample_env (ok_json token1_response)) "TOKEN2" []).
    + discriminate.
    + reflexivity.
  - destruct (proj1 fetch_prices_builds_price_info
                (sample_env (ok_json token1_response)) ["TOKEN1"; "TOKEN2"] []
                [("success", JBool true);
                 ("data", JDict [("TOKEN1", JDict [("price", JStr "1.23");
                                                    ("liquidity", JStr "1000")])])]
                [("TOKEN1", JDict [("price", JStr "1.23"); ("liquidity", JStr "1000")])])
      as (m & Hm & Hper).
    + discriminate.
    + reflexivity.
    + reflexivity.
    + reflexivity.
    + intros a [<-|[<-|[]]].
      * right. do 3 eexists. split; [reflexivity|]. split; vm_compute; reflexivity.
      * left. reflexivity.
    + exists m. split; [exact Hm|].
      apply (Hper "TOKEN2"); [right; left; reflexivity | reflexivity].
Defined.

(** A requested address with a non-empty entry gets no [PriceInfo] when
    the entry of another requested address is not a mapping, or when its
    own price is not a decimal numeral: the call raises and returns
    nothing for any address. *)
Lemma fetch_prices_malformed_entry_counterexample :
  (Py.truthy (JDict [("price", JStr "1.23"); ("liquidity", JStr "1000")]) = true /\
   exists tr,
     BirdEyeClient.fetch_prices
       (sample_env (ok_json (JDict [("success", JBool true);
          ("data", JDict [("TOKEN1", JDict [("price", JStr "1.23");
                                             ("liquidity", JStr "1000")]);
                          ("TOKEN2", JStr "oops")])])))
       ["TOKEN1"; "TOKEN2"] []
     = (Err AttributeError, tr)) /\
  (Py.truthy (JDict [("price", JStr "n/a"); ("liquidity", JStr "1000")]) = true /\
   exists tr,
     BirdEyeClient.fetch_prices
       (sample_env (ok_json (JDict [("success", JBool true);
          ("data", JDict [("TOKEN1", JDict [("price", JStr "n/a");
                                             ("liquidity", JStr "1000")])])])))
       ["TOKEN1"] []
     = (Err InvalidOperation, tr)).
Proof.
  split; (split; [reflexivity|]); eexists; vm_compute; reflexivity.
Qed.

(** C10, as the code has it: on a response with status 200 and a true
    success flag, a payload without the ["data"] key gives the empty
    mapping; and when ["data"] is a mapping, the requested addresses whose
    entry in it is missing or empty are left out of the result and raise
    nothing: the outcome is the one the loop produces on the other
    requested addresses alone, so it is the empty mapping when every
    requested address is such. *)
Theorem fetch_prices_skips_missing_data
        (w : Env) (token_addresses : list string) (tr : Trace)
        (top : list (string * json)) :
  token_addresses <> [] ->
  send w (multi_price_request w token_addresses)
    = Ok (mkResponse 200 (Some (JDict top))) ->
  Py.truthy (success_flag top) = true ->
  (Py.lookup "data" top = None ->
   BirdEyeClient.fetch_prices w token_addresses tr
   = (Ok PyDict.empty, (tr ++ [multi_price_request w token_addresses])%list)) /\
  (forall dd, Py.lookup "data" top = Some (JDict dd) ->
   BirdEyeClient.fetch_prices w token_addresses tr
   = (BirdEyeClient.prices_loop w (JDict top)
        (filter (fun a => Py.truthy (field_or a dd (JDict []))) token_addresses)
        PyDict.empty,
      (tr ++ [multi_price_request w token_addresses])%list) /\
   ((forall a, In a token_addresses -> Py.truthy (field_or a dd (JDict [])) = false) ->
    BirdEyeClient.fetch_prices w token_addresses tr
    = (Ok PyDict.empty, (tr ++ [multi_price_request w token_addresses])%list)) /\
   (forall m tr',
       BirdEyeClient.fetch_prices w token_addresses tr = (Ok m, tr') ->
       forall a, Py.truthy (field_or a dd (JDict [])) = false ->
                 PyDict.get (KStr a) m = None)).
Proof.
  intros Hne Hs Ht.
  pose proof (fetch_prices_run w _ tr top Hne Hs Ht) as Hrun.
  split.
  - intros Hnone. rewrite Hrun, (birdeye_loop_skips_no_data w (JDict top)).
    assert (Hall : forall l, filter (fun a => negb (no_data (JDict top) a)) l = []).
    { assert (Hnd : forall a, no_data (JDict top) a = true).
      { intros a. unfold no_data. rewrite (token_data_of_absent top a Hnone).
        reflexivity. }
      induction l as [|a l IH]; [reflexivity|]. cbn [filter].
      rewrite Hnd. exact IH. }
    rewrite Hall. reflexivity.
  - intros dd Hd.
    rewrite (birdeye_loop_skips_empty w top dd _ _ Hd) in Hrun.
    split; [exact Hrun|]. split.
    + intros Hall. rewrite Hrun.
      assert (Hnil : filter (fun a => Py.truthy (field_or a dd (JDict [])))
                       token_addresses = []).
      { clear - Hall. induction token_addresses as [|a l IH]; [reflexivity|].
        cbn [filter]. rewrite (Hall a (or_introl eq_refl)).
        apply IH. intros a' Ha'. apply Hall. now right. }
      rewrite Hnil. reflexivity.
    + intros m tr' Hm a Ha. rewrite Hrun in Hm. inversion Hm as [[Hloop Htr]].
      destruct (PyDict.get (KStr a) m) as [v|] eqn:Hg; [|reflexivity].
      apply PyDictFacts.get_Some_keys in Hg.
      destruct (birdeye_loop_keys w _ _ _ _ Hloop _ Hg) as [[]|(a' & Ha' & Heq)].
      inversion Heq; subst a'. apply filter_In in Ha'. rewrite Ha in Ha'.
      destruct Ha' as [_ Hf]. discriminate Hf.
Qed.

Lemma fetch_prices_skips_missing_data_witness :
  BirdEyeClient.fetch_prices
    (sample_env (ok_json (JDict [("success", JBool true)]))) ["TOKEN1"; "TOKEN2"] []
  = (Ok PyDict.empty,
     ([] ++ [multi_price_request (sample_env (ok_json (JDict [("success", JBool true)])))
               ["TOKEN1"; "TOKEN2"]])%list) /\
  BirdEyeClient.fetch_prices
    (sample_env (ok_json (JDict [("success", JBool true);
                                 ("data", JDict [("TOKEN1", JDict [])])])))
    ["TOKEN1"; "TOKEN2"] []
  = (Ok PyDict.empty,
     ([] ++ [multi_price_request
               (sample_env (ok_json (JDict [("success", JBool true);
                                            ("data", JDict [("TOKEN1", JDict [])])])))
               ["TOKEN1"; "TOKEN2"]])%list).
Proof.
  split.
  - apply (fetch_prices_skips_missing_data
             (sample_env (ok_json (JDict [("success", JBool true)])))
             ["TOKEN1"; "TOKEN2"] [] [("success", JBool true)]);
      first [discriminate | reflexivity].
  - destruct (fetch_prices_skips_missing_data
                (sample_env (ok_json (JDict [("success", JBool true);
                                             ("data", JDict [("TOKEN1", JDict [])])])))
                ["TOKEN1"; "TOKEN2"] []
                [("success", JBool true); ("data", JDict [("TOKEN1", JDict [])])])
      as [_ Hdd]; [discriminate | reflexivity | reflexivity |].
    destruct (Hdd [("TOKEN1", JDict [])] eq_refl) as (_ & Hall & _).
    apply Hall. intros a [<-|[<-|[]]]; reflexivity.
Defined.

(** Two successful-looking responses on which [fetch_prices] raises.  With
    status 201, a true success flag and no ["data"] key it raises
    [InvalidTokens], since only status 200 passes.  With status 200, a
    true success flag and a ["data"] that is [null], it raises the
    [AttributeError] of calling [get] on [None]. *)
Lemma fetch_prices_missing_structure_counterexample :
  (let resp := mkResponse 201 (Some (JDict [("success", JBool true)])) in
   200 <= status_code resp < 300 /\
   exists tr,
     BirdEyeClient.fetch_prices (sample_env (Ok resp)) ["TOKEN1"; "TOKEN2"] []
     = (Err InvalidTokens, tr)) /\
  (exists tr,
     BirdEyeClient.fetch_prices
       (sample_env (ok_json (JDict [("success", JBool true); ("data", JNull)])))
       ["TOKEN1"; "TOKEN2"] []
     = (Err AttributeError, tr)).
Proof.
  split.
  - cbn zeta. split; [cbn; lia|]. eexists. vm_compute. reflexivity.
  - eexists. vm_compute. reflexivity.
Qed.

Module NumeralFacts.

Import Numeral.

(** ** Characters of a rendered numeral *)

Lemma digit_char_plain (d : digit) : plain (digit_char d).
Proof. destruct d; split; reflexivity. Qed.

Lemma digits_chars_plain (ds : list digit) : Forall plain (digits_chars ds).
Proof.
  induction ds; constructor; [apply digit_char_plain | assumption].
Qed.

Lemma sign_chars_plain (s : sign) : Forall plain (sign_chars s).
Proof. destruct s; repeat constructor. Qed.

Lemma chars_plain (n : t) : Forall plain (chars n).
Proof.
  unfold chars, body_chars, frac_chars, exponent_chars.
  apply Forall_app; split; [apply sign_chars_plain|].
  apply Forall_app; split; [apply digits_chars_plain|].
  apply Forall_app; split.
  - destruct (frac_part n); constructor; [split; reflexivity | apply digits_chars_plain].
  - destruct (exponent n) as [[[u s] ds]|]; constructor.
    + destruct u; split; reflexivity.
    + apply Forall_app; split; [apply sign_chars_plain | apply digits_chars_plain].
Qed.

Lemma lstrip_plain (l : list ascii) : Forall plain l -> PyDecimal.lstrip l = l.
Proof.
  destruct 1 as [|c l [Hs _] _]; [reflexivity|]. cbn. now rewrite Hs.
Qed.

Lemma rstrip_plain (l : list ascii) : Forall plain l -> PyDecimal.rstrip l = l.
Proof.
  induction 1 as [|c l [Hs _] _ IH]; [reflexivity|].
  cbn. rewrite IH. destruct l; [now rewrite Hs | reflexivity].
Qed.

Lemma filter_plain (l : list ascii) :
  Forall plain l -> filter PyDecimal.not_underscore l = l.
Proof.
  induction 1 as [|c l [_ Hu] _ IH]; [reflexivity|].
  cbn. now rewrite Hu, IH.
Qed.

(** ** The pieces of the parser on the pieces of a numeral *)

Lemma digit_of_digit_char (d : digit) :
  PyDecimal.digit_of (digit_char d) = Some (digit_val d).
Proof. destruct d; reflexivity. Qed.

Lemma span_digits_app (ds : list digit) (rest : list ascii) :
  no_digit_ahead rest ->
  PyDecimal.span_digits (digits_chars ds ++ rest)%list = (map digit_val ds, rest).
Proof.
  intros Hrest. induction ds as [|d ds IH]; cbn.
  - destruct rest as [|c rest]; [reflexivity|]. cbn in *. now rewrite Hrest.
  - rewrite digit_of_digit_char. unfold digits_chars in IH. now rewrite IH.
Qed.

Lemma parse_sign_chars (s : sign) (rest : list ascii) :
  no_sign_ahead rest ->
  PyDecimal.parse_sign (sign_chars s ++ rest)%list = (is_minus s, rest).
Proof.
  intros Hrest. destruct s; cbn; try reflexivity.
  destruct rest as [|c rest]; [reflexivity|]. cbn in *.
  destruct Hrest as [-> ->]. reflexivity.
Qed.

Lemma digits_no_sign_ahead (ds : list digit) (rest : list ascii) :
  ds <> [] -> no_sign_ahead (digits_chars ds ++ rest)%list.
Proof. destruct ds as [|d ds]; [congruence|]. intros _. destruct d; split; reflexivity. Qed.

Lemma digits_val_app (ds : list N) (acc : N) :
  fold_left (fun a d => 10 * a + d)%N ds acc
  = (acc * 10 ^ N.of_nat (List.length ds) + PyDecimal.digits_val ds)%N.
Proof.
  unfold PyDecimal.digits_val. revert acc.
  induction ds as [|d ds IH]; intros acc.
  - cbn. lia.
  - cbn [fold_left List.length]. rewrite IH, (IH (10 * 0 + d)%N).
    rewrite Nat2N.inj_succ, N.pow_succ_r'. lia.
Qed.

Lemma digits_val_int_value (ds : list digit) :
  PyDecimal.digits_val (map digit_val ds) = int_value ds.
Proof.
  induction ds as [|d ds IH]; [reflexivity|].
  unfold PyDecimal.digits_val in *. cbn [map fold_left int_value].
  rewrite digits_val_app. unfold PyDecimal.digits_val. rewrite IH, length_map. lia.
Qed.

Lemma int_value_app (a b : list digit) :
  int_value (a ++ b)%list
  = (int_value a * 10 ^ N.of_nat (List.length b) + int_value b)%N.
Proof.
  induction a as [|d a IH]; [cbn; lia|].
  cbn [app int_value]. rewrite IH, length_app, Nat2N.inj_add, N.pow_add_r. lia.
Qed.

Lemma parse_exponent_chars (n : t) :
  well_formed n ->
  PyDecimal.parse_exponent (exponent_chars n) = Some (exponent_value n).
Proof.
  intros [_ Hexp]. unfold exponent_chars, exponent_value.
  destruct (exponent n) as [[[u s] ds]|]; [|reflexivity].
  specialize (Hexp u s ds eq_refl).
  cbn [PyDecimal.parse_exponent].
  replace (Ascii.eqb (PyDecimal.lower (if u then "E"%char else "e"%char)) "e") with true
    by (destruct u; reflexivity).
  replace (sign_chars s ++ digits_chars ds)%list
    with (sign_chars s ++ (digits_chars ds ++ []))%list by now rewrite app_nil_r.
  rewrite parse_sign_chars by now apply digits_no_sign_ahead.
  rewrite span_digits_app by exact I.
  destruct ds as [|d ds]; [congruence|].
  cbn [map]. rewrite <- (digits_val_int_value (d :: ds)). reflexivity.
Qed.

Lemma exponent_no_digit_ahead (n : t) : no_digit_ahead (exponent_chars n).
Proof.
  unfold exponent_chars. destruct (exponent n) as [[[u s] ds]|]; [|exact I].
  destruct u; reflexivity.
Qed.

Lemma parse_finite_body (n : t) :
  well_formed n ->
  PyDecimal.parse_finite (body_chars n)
  = Some (map digit_val (int_part n ++ frac_digits n)%list,
          exponent_value n - Z.of_nat (List.length (frac_digits n))).
Proof.
  intros Hwf. pose proof (parse_exponent_chars n Hwf) as Hexp.
  destruct Hwf as [Hdigits _].
  unfold PyDecimal.parse_finite, body_chars.
  rewrite span_digits_app.
  2:{ unfold frac_chars. destruct (frac_part n); [reflexivity|].
      apply exponent_no_digit_ahead. }
  unfold frac_chars, frac_digits in *.
  destruct (frac_part n) as [f|].
  - cbn [app]. change (Ascii.eqb "." ".") with true. cbn iota.
    rewrite span_digits_app by apply exponent_no_digit_ahead.
    rewrite map_app, length_map.
    destruct (int_part n) as [|d ip]; cbn [map].
    + destruct f as [|d f]; [destruct Hdigits; congruence|].
      cbn [map]. rewrite Hexp. reflexivity.
    + rewrite Hexp. reflexivity.
  - rewrite app_nil_r.
    destruct (int_part n) as [|d ip]; [destruct Hdigits; congruence|].
    assert (Hrest : match exponent_chars n with
                    | c :: r => if Ascii.eqb c "." then PyDecimal.span_digits r
                                else ([], exponent_chars n)
                    | [] => ([], [])
                    end = ([], exponent_chars n)).
    { unfold exponent_chars. destruct (exponent n) as [[[u s] ds]|]; [|reflexivity].
      destruct u; reflexivity. }
    cbn [app]. rewrite Hrest. cbn [map]. rewrite Hexp.
    cbn [List.length Z.of_nat]. rewrite Z.sub_0_r, app_nil_r. reflexivity.
Qed.

Lemma body_no_sign_ahead (n : t) : well_formed n -> no_sign_ahead (body_chars n).
Proof.
  intros [Hdigits _]. unfold body_chars, frac_chars, frac_digits in *.
  destruct (int_part n) as [|d ip].
  - destruct (frac_part n) as [f|]; [split; reflexivity|]. destruct Hdigits; congruence.
  - destruct d; split; reflexivity.
Qed.

(** [Decimal] of a written numeral: the digits and the exponent as
    written, provided they fit. *)
Lemma of_str_render (n : t) :
  well_formed n ->
  PyDecimal.of_str (render n)
  = if PyDecimal.in_range (map digit_val (int_part n ++ frac_digits n)%list)
         (exponent_value n - Z.of_nat (List.length (frac_digits n)))
    then Ok (PyDecimal.Finite (is_minus (num_sign n))
               (int_value (int_part n ++ frac_digits n)%list)
               (exponent_value n - Z.of_nat (List.length (frac_digits n))))
    else Err InvalidOperation.
Proof.
  intros Hwf. unfold PyDecimal.of_str, render, PyDecimal.of_chars, PyDecimal.strip.
  rewrite list_ascii_of_string_of_list_ascii.
  pose proof (chars_plain n) as Hp.
  rewrite (lstrip_plain _ Hp), (rstrip_plain _ Hp), (filter_plain _ Hp).
  unfold chars. rewrite parse_sign_chars by now apply body_no_sign_ahead.
  rewrite (parse_finite_body n Hwf), digits_val_int_value. reflexivity.
Qed.

End NumeralFacts.

Module NumeralValue.

Import Numeral.
Local Open Scope Q_scope.

Lemma ten_nonzero : ~ ten == 0.
Proof. unfold ten. intros H. discriminate H. Qed.

Lemma pow10_nonzero (k : nat) : ~ pow10 k == 0.
Proof. apply Qpower_not_0, ten_nonzero. Qed.

Lemma pow10_succ (k : nat) : pow10 (S k) == ten * pow10 k.
Proof.
  unfold pow10. rewrite Nat2Z.inj_succ. unfold Z.succ.
  rewrite Qpower_plus by apply ten_nonzero.
  rewrite Qmult_comm. apply Qmult_comp; [|reflexivity]. reflexivity.
Qed.

Lemma inject_pow10 (k : nat) :
  inject_Z (Z.of_N (10 ^ N.of_nat k)) == pow10 k.
Proof.
  unfold pow10, ten. rewrite N2Z.inj_pow, nat_N_Z.
  change (Z.of_N 10) with 10%Z.
  rewrite Zpower_Qpower by lia. reflexivity.
Qed.

Lemma frac_value_scaled (ds : list digit) :
  frac_value ds * pow10 (List.length ds) == inject_Z (Z.of_N (int_value ds)).
Proof.
  induction ds as [|d ds IH].
  - cbn. reflexivity.
  - cbn [frac_value List.length int_value].
    rewrite N2Z.inj_add, N2Z.inj_mul, inject_Z_plus, inject_Z_mult.
    rewrite inject_pow10, <- IH, pow10_succ.
    fold ten. field. apply ten_nonzero.
Qed.

Lemma int_frac_value (ip fd : list digit) :
  inject_Z (Z.of_N (int_value (ip ++ fd)%list))
  == (inject_Z (Z.of_N (int_value ip)) + frac_value fd) * pow10 (List.length fd).
Proof.
  rewrite NumeralFacts.int_value_app.
  rewrite N2Z.inj_add, N2Z.inj_mul, inject_Z_plus, inject_Z_mult.
  rewrite inject_pow10, <- (frac_value_scaled fd). ring.
Qed.

Lemma shifted_power (e : Z) (k : nat) :
  pow10 k * ten ^ (e - Z.of_nat k) == ten ^ e.
Proof.
  unfold pow10. rewrite <- Qpower_plus by apply ten_nonzero.
  replace (Z.of_nat k + (e - Z.of_nat k))%Z with e by lia. reflexivity.
Qed.

(** The decimal read from a numeral stands for the number the numeral
    denotes. *)
Lemma finite_value (n : t) :
  PyDecimal.to_Q
    (PyDecimal.Finite (is_minus (num_sign n))
       (int_value (int_part n ++ frac_digits n)%list)
       (exponent_value n - Z.of_nat (List.length (frac_digits n))))
  = Some ((if is_minus (num_sign n)
           then - inject_Z (Z.of_N (int_value (int_part n ++ frac_digits n)%list))
           else inject_Z (Z.of_N (int_value (int_part n ++ frac_digits n)%list)))
          * ten ^ (exponent_value n - Z.of_nat (List.length (frac_digits n)))).
Proof. reflexivity. Qed.

Lemma finite_value_denote (n : t) :
  (if is_minus (num_sign n)
   then - inject_Z (Z.of_N (int_value (int_part n ++ frac_digits n)%list))
   else inject_Z (Z.of_N (int_value (int_part n ++ frac_digits n)%list)))
  * ten ^ (exponent_value n - Z.of_nat (List.length (frac_digits n)))
  == denote n.
Proof.
  unfold denote. cbv zeta. fold ten.
  pose proof (shifted_power (exponent_value n) (List.length (frac_digits n))) as Hp.
  pose proof (int_frac_value (int_part n) (frac_digits n)) as Hv.
  destruct (is_minus (num_sign n)); rewrite Hv, <- Hp; ring.
Qed.

(** Exactness of [Decimal] on written numerals: whenever the conversion
    returns, the decimal stands for the number written; and it returns
    when the numeral fits the exponent limits. *)
Lemma of_str_exact (n : t) :
  well_formed n ->
  (forall d, PyDecimal.of_str (render n) = Ok d ->
             exists q, PyDecimal.to_Q d = Some q /\ q == denote n) /\
  (fits n -> exists d, PyDecimal.of_str (render n) = Ok d).
Proof.
  intros Hwf. rewrite (NumeralFacts.of_str_render n Hwf). split.
  - intros d Hd.
    destruct (PyDecimal.in_range _ _); [|discriminate].
    inversion Hd; subst d. rewrite finite_value.
    eexists. split; [reflexivity | apply finite_value_denote].
  - unfold fits. intros ->. eauto.
Qed.

End NumeralValue.

(** C9: a price or liquidity field that is a decimal numeral written as a
    string is stored with exactly the value written, in both bulk price
    methods: the string goes to [Decimal] as it is and no float is
    involved.  Whenever a [PriceInfo] results its two fields stand for
    the numbers written, and one results as soon as the numerals are
    within the exponent limits of [Decimal].  The string
    [0.000000001234] is stored as 1234 with exponent -12. *)
Theorem decimal_strings_kept_exactly :
  (forall (w : Env) (token_data : json) (p l : Numeral.t),
      Numeral.well_formed p -> Numeral.well_formed l ->
      Py.get token_data "price" (JStr "0") = Ok (JStr (Numeral.render p)) ->
      Py.get token_data "liquidity" (JStr "0") = Ok (JStr (Numeral.render l)) ->
      (forall info, BirdEyeClient.price_info w token_data = Ok info ->
                    stands_for (value info) p /\ stands_for (liquidity info) l) /\
      (Numeral.fits p -> Numeral.fits l ->
       exists info, BirdEyeClient.price_info w token_data = Ok info)) /\
  (forall (w : Env) (pair_ lq addr : json) (k : pykey) (p l : Numeral.t),
      Numeral.well_formed p -> Numeral.well_formed l ->
      Py.getitem pair_ "priceNative" = Ok (JStr (Numeral.render p)) ->
      Py.getitem pair_ "liquidity" = Ok lq ->
      Py.getitem lq "usd" = Ok (JStr (Numeral.render l)) ->
      (forall kv, DexScreenerClient.price_entry w pair_ = Ok kv ->
                  stands_for (value (snd kv)) p /\ stands_for (liquidity (snd kv)) l) /\
      (Numeral.fits p -> Numeral.fits l ->
       (bt <- Py.getitem pair_ "baseToken" ;;
        a <- Py.getitem bt "address" ;; key_of_json a)%result = Ok k ->
       exists info, DexScreenerClient.price_entry w pair_ = Ok (k, info))) /\
  (forall w : Env,
      Decimal w (JStr "0.000000001234") = Ok (PyDecimal.Finite false 1234 (-12)) /\
      stands_for (PyDecimal.Finite false 1234 (-12)) tiny_numeral /\
      (Numeral.denote tiny_numeral == 1234 # 1000000000000)%Q).
Proof.
  assert (Hexact : forall w n d,
             Numeral.well_formed n ->
             Decimal w (JStr (Numeral.render n)) = Ok d -> stands_for d n).
  { intros w n d Hwf Hd. cbn [Decimal] in Hd.
    exact (proj1 (NumeralValue.of_str_exact n Hwf) d Hd). }
  assert (Htotal : forall w n,
             Numeral.well_formed n -> Numeral.fits n ->
             exists d, Decimal w (JStr (Numeral.render n)) = Ok d).
  { intros w n Hwf Hfit. cbn [Decimal].
    exact (proj2 (NumeralValue.of_str_exact n Hwf) Hfit). }
  split; [|split].
  - intros w token_data p l Hp Hl Hprice Hliq.
    unfold BirdEyeClient.price_info. rewrite Hprice, Hliq. cbn [rbind]. split.
    + intros info Hinfo.
      destruct (Decimal w (JStr (Numeral.render p))) as [v|e] eqn:Hv; [|discriminate].
      cbn [rbind] in Hinfo.
      destruct (Decimal w (JStr (Numeral.render l))) as [v'|e] eqn:Hv'; [|discriminate].
      cbn [rbind] in Hinfo. inversion Hinfo; subst info. cbn [value liquidity].
      split; eapply Hexact; eauto.
    + intros Hfp Hfl.
      destruct (Htotal w p Hp Hfp) as [v Hv]. destruct (Htotal w l Hl Hfl) as [v' Hv'].
      rewrite Hv. cbn [rbind]. rewrite Hv'. cbn [rbind]. eauto.
  - intros w pair_ lq addr k p l Hp Hl Hprice Hlq Husd.
    unfold DexScreenerClient.price_entry. rewrite Hprice. cbn [rbind]. split.
    + intros kv Hkv.
      destruct (Decimal w (JStr (Numeral.render p))) as [v|e] eqn:Hv; [|discriminate].
      cbn [rbind] in Hkv. rewrite Hlq in Hkv. cbn [rbind] in Hkv.
      rewrite Husd in Hkv. cbn [rbind] in Hkv.
      destruct (Decimal w (JStr (Numeral.render l))) as [v'|e] eqn:Hv'; [|discriminate].
      cbn [rbind] in Hkv.
      destruct (Py.getitem pair_ "baseToken") as [bt|e]; [|discriminate].
      cbn [rbind] in Hkv.
      destruct (Py.getitem bt "address") as [a|e]; [|discriminate]. cbn [rbind] in Hkv.
      destruct (key_of_json a) as [k'|e]; [|discriminate]. cbn [rbind] in Hkv.
      inversion Hkv; subst kv. cbn [snd value liquidity].
      split; eapply Hexact; eauto.
    + intros Hfp Hfl Hkey.
      destruct (Htotal w p Hp Hfp) as [v Hv]. destruct (Htotal w l Hl Hfl) as [v' Hv'].
      rewrite Hv. cbn [rbind]. rewrite Hlq. cbn [rbind]. rewrite Husd. cbn [rbind].
      rewrite Hv'. cbn [rbind].
      destruct (Py.getitem pair_ "baseToken") as [bt|e]; [|discriminate].
      cbn [rbind] in Hkey |- *.
      destruct (Py.getitem bt "address") as [a|e]; [|discriminate].
      cbn [rbind] in Hkey |- *. rewrite Hkey. cbn [rbind]. eauto.
  - intros w. split; [reflexivity|]. split.
    + apply (Hexact w tiny_numeral); [|reflexivity].
      split; [left; discriminate | intros u s ds H; discriminate H].
    + reflexivity.
Qed.


Lemma tiny_numeral_well_formed : Numeral.well_formed tiny_numeral.
Proof. split; [left; discriminate | intros u s ds H; discriminate H]. Qed.

Lemma zero_numeral_well_formed : Numeral.well_formed zero_numeral.
Proof. split; [left; discriminate | intros u s ds H; discriminate H]. Qed.

Lemma decimal_strings_kept_exactly_witness :
  stands_for (PyDecimal.Finite false 1234 (-12)) tiny_numeral /\
  stands_for (PyDecimal.Finite false 0 0) zero_numeral.
Proof.
  apply (proj1 (proj1 decimal_strings_kept_exactly
                  (sample_env (Err RequestException))
                  (JDict [("price", JStr "0.000000001234")])
                  tiny_numeral zero_numeral
                  tiny_numeral_well_formed zero_numeral_well_formed
                  eq_refl eq_refl)
               (mkPriceInfo (PyDecimal.Finite false 1234 (-12)) (PyDecimal.Finite false 0 0))).
  reflexivity.
Defined.

(* ===================================================================== *)
(** * The four methods, step by step *)
(* ===================================================================== *)

Section Runs.

Variable w : Env.

Lemma fetch_prices_steps (token_addresses : list string) (tr : Trace) :
  token_addresses <> [] ->
  BirdEyeClient.fetch_prices w token_addresses tr
  = ((resp <- send w (multi_price_request w token_addresses) ;;
      data <- birdeye_decode resp ;;
      BirdEyeClient.prices_loop w data token_addresses PyDict.empty)%result,
     (tr ++ [multi_price_request w token_addresses])%list).
Proof.
  intros Hne. destruct token_addresses as [|a l]; [congruence|].
  unfold BirdEyeClient.fetch_prices, BirdEyeClient._make_api_call, bind, lift, request.
  cbn [Str.upper Str.upper_char String.eqb].
  change (mkRequest "GET" (BirdEyeClient.multi_price_url (a :: l)) (BirdEyeClient._headers w))
    with (multi_price_request w (a :: l)).
  cbn -[multi_price_request BirdEyeClient.prices_loop Z.eqb].
  destruct (send w (multi_price_request w (a :: l))) as [resp|e]; [|reflexivity].
  unfold birdeye_decode. cbn [rbind].
  destruct (negb (status_code resp =? 200)); [reflexivity|].
  destruct (json_of resp) as [data|e]; [|reflexivity]. cbn [rbind].
  destruct (Py.get data "success" JNull) as [s|e]; [|reflexivity]. cbn [rbind].
  destruct (negb (Py.truthy s)); reflexivity.
Qed.

Lemma birdeye_overview_steps (address : string) (tr : Trace) :
  is_solana_address w address = true ->
  BirdEyeClient.fetch_token_overview w address tr
  = ((resp <- send w (overview_request w address) ;;
      data <- birdeye_decode resp ;;
      overview_data <- Py.get data "data" (JDict []) ;;
      TokenOverview_of_kwargs overview_data)%result,
     (tr ++ [overview_request w address])%list).
Proof.
  intros Hv.
  unfold BirdEyeClient.fetch_token_overview, BirdEyeClient._make_api_call, bind, lift, request.
  rewrite Hv. cbn [negb Str.upper Str.upper_char String.eqb].
  change (mkRequest "GET" (BirdEyeClient.overview_url address) (BirdEyeClient._headers w))
    with (overview_request w address).
  cbn -[overview_request TokenOverview_of_kwargs Z.eqb].
  destruct (send w (overview_request w address)) as [resp|e]; [|reflexivity].
  unfold birdeye_decode. cbn [rbind].
  destruct (negb (status_code resp =? 200)); [reflexivity|].
  destruct (json_of resp) as [data|e]; [|reflexivity]. cbn [rbind].
  destruct (Py.get data "success" JNull) as [s|e]; [|reflexivity]. cbn [rbind].
  destruct (negb (Py.truthy s)); [reflexivity|]. cbn [rbind].
  destruct (Py.get data "data" (JDict [])); reflexivity.
Qed.

Lemma call_api_steps (token_address : string) (tr : Trace) :
  DexScreenerClient._call_api w token_address tr
  = match DexScreenerClient._validate_token_address w token_address with
    | Ok _ => ((resp <- send w (single_request token_address) ;; dex_decode resp)%result,
               (tr ++ [single_request token_address])%list)
    | Err e => (Err e, tr)
    end.
Proof.
  unfold DexScreenerClient._call_api, bind, lift, request.
  destruct (DexScreenerClient._validate_token_address w token_address); [|reflexivity].
  fold (single_request token_address).
  destruct (send w (single_request token_address)) as [resp|e]; [|reflexivity].
  unfold dex_decode. cbn [rbind].
  destruct (DexScreenerClient._validate_response resp); reflexivity.
Qed.

Lemma call_api_bulk_steps (token_addresses : list string) (tr : Trace) :
  DexScreenerClient._call_api_bulk w token_addresses tr
  = match DexScreenerClient._validate_token_addresses w token_addresses with
    | Ok _ => ((resp <- send w (bulk_request token_addresses) ;; dex_decode resp)%result,
               (tr ++ [bulk_request token_addresses])%list)
    | Err e => (Err e, tr)
    end.
Proof.
  unfold DexScreenerClient._call_api_bulk, bind, lift, request.
  destruct (DexScreenerClient._validate_token_addresses w token_addresses); [|reflexivity].
  fold (bulk_request token_addresses).
  destruct (send w (bulk_request token_addresses)) as [resp|e]; [|reflexivity].
  unfold dex_decode. cbn [rbind].
  destruct (DexScreenerClient._validate_response resp); reflexivity.
Qed.

Lemma fetch_prices_dex_steps (token_addresses : list string) (tr : Trace) :
  DexScreenerClient.fetch_prices_dex w token_addresses tr
  = match DexScreenerClient._validate_token_addresses w token_addresses with
    | Ok _ => ((resp <- send w (bulk_request token_addresses) ;;
                data <- dex_decode resp ;;
                DexScreenerClient.prices_of_data w data)%result,
               (tr ++ [bulk_request token_addresses])%list)
    | Err e => (Err e, tr)
    end.
Proof.
  unfold DexScreenerClient.fetch_prices_dex, bind, lift. rewrite call_api_bulk_steps.
  destruct (DexScreenerClient._validate_token_addresses w token_addresses); [|reflexivity].
  destruct (send w (bulk_request token_addresses)) as [resp|e]; [|reflexivity].
  cbn [rbind]. destruct (dex_decode resp); reflexivity.
Qed.

Lemma dex_overview_steps (address : string) (tr : Trace) :
  DexScreenerClient.fetch_token_overview w address tr
  = match DexScreenerClient._validate_token_address w address with
    | Ok _ => ((resp <- send w (single_request address) ;;
                data <- dex_decode resp ;;
                DexScreenerClient.overview_of_data w data)%result,
               (tr ++ [single_request address])%list)
    | Err e => (Err e, tr)
    end.
Proof.
  unfold DexScreenerClient.fetch_token_overview, bind, lift. rewrite call_api_steps.
  destruct (DexScreenerClient._validate_token_address w address); [|reflexivity].
  destruct (send w (single_request address)) as [resp|e]; [|reflexivity].
  cbn [rbind]. destruct (dex_decode resp); reflexivity.
Qed.

Lemma validate_address_spec (a : string) :
  (acceptable w a /\ DexScreenerClient._validate_token_address w a = Ok tt) \/
  (~ acceptable w a /\ DexScreenerClient._validate_token_address w a = Err (rejection a)).
Proof.
  unfold acceptable, rejection, DexScreenerClient._validate_token_address.
  destruct (String.eqb_spec a "") as [->|Hne].
  - right. split; [intros [H _]; congruence | reflexivity].
  - destruct (is_solana_address w a); cbn.
    + left. auto.
    + right. split; [intros [_ H]; discriminate | reflexivity].
Qed.

Lemma validate_each_all (l : list string) :
  Forall (acceptable w) l -> DexScreenerClient.validate_each w l = Ok tt.
Proof.
  induction 1 as [|a l Ha _ IH]; [reflexivity|].
  cbn [DexScreenerClient.validate_each].
  destruct (validate_address_spec a) as [[_ ->]|[Hn _]]; [exact IH | contradiction].
Qed.

Lemma validate_each_first (good rest : list string) (bad : string) :
  Forall (acceptable w) good -> ~ acceptable w bad ->
  DexScreenerClient.validate_each w (good ++ bad :: rest)%list = Err (rejection bad).
Proof.
  intros Hgood Hbad. induction Hgood as [|a l Ha _ IH]; cbn [app DexScreenerClient.validate_each].
  - destruct (validate_address_spec bad) as [[Hok _]|[_ ->]]; [contradiction | reflexivity].
  - destruct (validate_address_spec a) as [[_ ->]|[Hn _]]; [exact IH | contradiction].
Qed.

Lemma validate_each_inv (l : list string) :
  DexScreenerClient.validate_each w l = Ok tt -> Forall (acceptable w) l.
Proof.
  induction l as [|a l IH]; [constructor|]. cbn [DexScreenerClient.validate_each].
  destruct (validate_address_spec a) as [[Hok ->]|[_ ->]]; [|discriminate].
  cbn [rbind]. intros H. constructor; auto.
Qed.

Lemma validate_token_addresses_iff_aux (l : list string) :
  DexScreenerClient._validate_token_addresses w l = Ok tt <->
  l <> [] /\ Forall (acceptable w) l.
Proof.
  destruct l as [|a l].
  - cbn. split; [discriminate | intros [H _]; congruence].
  - unfold DexScreenerClient._validate_token_addresses. split.
    + intros H. split; [discriminate | now apply validate_each_inv].
    + intros [_ H]. now apply validate_each_all.
Qed.

End Runs.

(* ===================================================================== *)
(** * Requests and failures of the four methods *)
(* ===================================================================== *)

Module UpperFacts.










End UpperFacts.



(** X2: each of the four methods sends at most one request and never a
    second one, whatever the answer: [fetch_prices] sends the multi-price
    request exactly when the list is not empty, without looking at the
    addresses; the other three send theirs exactly when their address
    check passes. *)
Theorem requests_sent (w : Env) (tr : Trace) :
  (forall l, snd (BirdEyeClient.fetch_prices w l tr)
             = match l with
               | [] => tr
               | _ => (tr ++ [multi_price_request w l])%list
               end) /\
  (forall a, snd (BirdEyeClient.fetch_token_overview w a tr)
             = if is_solana_address w a then (tr ++ [overview_request w a])%list else tr) /\
  (forall a, snd (DexScreenerClient.fetch_token_overview w a tr)
             = match DexScreenerClient._validate_token_address w a with
               | Ok _ => (tr ++ [single_request a])%list
               | Err _ => tr
               end) /\
  (forall l, snd (DexScreenerClient.fetch_prices_dex w l tr)
             = match DexScreenerClient._validate_token_addresses w l with
               | Ok _ => (tr ++ [bulk_request l])%list
               | Err _ => tr
               end).
Proof.
  repeat split.
  - intros [|a l]; [reflexivity|].
    rewrite fetch_prices_steps by discriminate. reflexivity.
  - intros a. destruct (is_solana_address w a) eqn:Hv.
    + rewrite birdeye_overview_steps by exact Hv. reflexivity.
    + unfold BirdEyeClient.fetch_token_overview. rewrite Hv. reflexivity.
  - intros a. rewrite dex_overview_steps.
    destruct (DexScreenerClient._validate_token_address w a); reflexivity.
  - intros l. rewrite fetch_prices_dex_steps.
    destruct (DexScreenerClient._validate_token_addresses w l); reflexivity.
Qed.

(** X3: a response whose status is not 200 makes each of the four methods
    raise [InvalidTokens], whatever its body holds, once the input has
    passed the method's own check. *)
Theorem status_not_200_raises_InvalidTokens (w : Env) (resp : Response) (tr : Trace) :
  status_code resp <> 200 ->
  (forall l, l <> [] -> send w (multi_price_request w l) = Ok resp ->
             fst (BirdEyeClient.fetch_prices w l tr) = Err InvalidTokens) /\
  (forall a, is_solana_address w a = true -> send w (overview_request w a) = Ok resp ->
             fst (BirdEyeClient.fetch_token_overview w a tr) = Err InvalidTokens) /\
  (forall a, acceptable w a -> send w (single_request a) = Ok resp ->
             fst (DexScreenerClient.fetch_token_overview w a tr) = Err InvalidTokens) /\
  (forall l, l <> [] -> Forall (acceptable w) l -> send w (bulk_request l) = Ok resp ->
             fst (DexScreenerClient.fetch_prices_dex w l tr) = Err InvalidTokens).
Proof.
  intros Hst. apply Z.eqb_neq in Hst.
  assert (Hb : birdeye_decode resp = Err InvalidTokens)
    by (unfold birdeye_decode; rewrite Hst; reflexivity).
  assert (Hd : dex_decode resp = Err InvalidTokens)
    by (unfold dex_decode, DexScreenerClient._validate_response; rewrite Hst; reflexivity).
  repeat split.
  - intros l Hne Hs. rewrite fetch_prices_steps by exact Hne.
    cbn [fst]. rewrite Hs. cbn [rbind]. rewrite Hb. reflexivity.
  - intros a Hv Hs. rewrite birdeye_overview_steps by exact Hv.
    cbn [fst]. rewrite Hs. cbn [rbind]. rewrite Hb. reflexivity.
  - intros a Ha Hs. rewrite dex_overview_steps.
    destruct (validate_address_spec w a) as [[_ ->]|[Hn _]]; [|contradiction].
    cbn [fst]. rewrite Hs. cbn [rbind]. rewrite Hd. reflexivity.
  - intros l Hne Hall Hs. rewrite fetch_prices_dex_steps.
    destruct l as [|a l]; [congruence|].
    unfold DexScreenerClient._validate_token_addresses.
    rewrite (validate_each_all w _ Hall).
    cbn [fst]. rewrite Hs. cbn [rbind]. rewrite Hd. reflexivity.
Qed.

Lemma status_not_200_raises_InvalidTokens_witness :
  fst (DexScreenerClient.fetch_prices_dex
         (sample_env (Ok (mkResponse 404 (Some (JDict [("pairs", JList [])])))))
         [WSOL; USDC] [])
  = Err InvalidTokens.
Proof.
  apply (status_not_200_raises_InvalidTokens
           (sample_env (Ok (mkResponse 404 (Some (JDict [("pairs", JList [])])))))
           (mkResponse 404 (Some (JDict [("pairs", JList [])]))) []).
  - discriminate.
  - discriminate.
  - repeat constructor; discriminate.
  - reflexivity.
Defined.

(** X4: in both methods of the first provider, a response with status 200
    whose success flag is absent, null, false, zero or empty raises
    [InvalidTokens]: the payload is not looked at. *)
Theorem success_flag_not_true_raises_InvalidTokens
        (w : Env) (top : list (string * json)) (tr : Trace) :
  Py.truthy (success_flag top) = false ->
  (forall l, l <> [] ->
             send w (multi_price_request w l) = Ok (mkResponse 200 (Some (JDict top))) ->
             fst (BirdEyeClient.fetch_prices w l tr) = Err InvalidTokens) /\
  (forall a, is_solana_address w a = true ->
             send w (overview_request w a) = Ok (mkResponse 200 (Some (JDict top))) ->
             fst (BirdEyeClient.fetch_token_overview w a tr) = Err InvalidTokens).
Proof.
  intros Hflag.
  assert (Hb : birdeye_decode (mkResponse 200 (Some (JDict top))) = Err InvalidTokens).
  { unfold birdeye_decode, json_of. cbn [status_code body Z.eqb Pos.eqb negb rbind Py.get].
    fold (success_flag top). rewrite Hflag. reflexivity. }
  split.
  - intros l Hne Hs. rewrite fetch_prices_steps by exact Hne.
    cbn [fst]. rewrite Hs. cbn [rbind]. rewrite Hb. reflexivity.
  - intros a Hv Hs. rewrite birdeye_overview_steps by exact Hv.
    cbn [fst]. rewrite Hs. cbn [rbind]. rewrite Hb. reflexivity.
Qed.

Lemma success_flag_not_true_raises_InvalidTokens_witness :
  fst (BirdEyeClient.fetch_prices
         (sample_env (ok_json (JDict [("success", JBool false);
                                      ("data", JDict [("TOKEN1", JDict [("price", JStr "1")])])])))
         ["TOKEN1"] [])
  = Err InvalidTokens.
Proof.
  apply (success_flag_not_true_raises_InvalidTokens
           (sample_env (ok_json (JDict [("success", JBool false);
                                        ("data", JDict [("TOKEN1", JDict [("price", JStr "1")])])])))
           [("success", JBool false); ("data", JDict [("TOKEN1", JDict [("price", JStr "1")])])]
           []).
  - reflexivity.
  - discriminate.
  - reflexivity.
Defined.

(** X5: an exception raised by the transport comes out of each of the
    four methods as it is: nothing is caught or replaced. *)
Theorem transport_exception_propagates (w : Env) (e : exn) (tr : Trace) :
  (forall l, l <> [] -> send w (multi_price_request w l) = Err e ->
             fst (BirdEyeClient.fetch_prices w l tr) = Err e) /\
  (forall a, is_solana_address w a = true -> send w (overview_request w a) = Err e ->
             fst (BirdEyeClient.fetch_token_overview w a tr) = Err e) /\
  (forall a, acceptable w a -> send w (single_request a) = Err e ->
             fst (DexScreenerClient.fetch_token_overview w a tr) = Err e) /\
  (forall l, l <> [] -> Forall (acceptable w) l -> send w (bulk_request l) = Err e ->
             fst (DexScreenerClient.fetch_prices_dex w l tr) = Err e).
Proof.
  repeat split.
  - intros l Hne Hs. rewrite fetch_prices_steps by exact Hne.
    cbn [fst]. rewrite Hs. reflexivity.
  - intros a Hv Hs. rewrite birdeye_overview_steps by exact Hv.
    cbn [fst]. rewrite Hs. reflexivity.
  - intros a Ha Hs. rewrite dex_overview_steps.
    destruct (validate_address_spec w a) as [[_ ->]|[Hn _]]; [|contradiction].
    cbn [fst]. rewrite Hs. reflexivity.
  - intros l Hne Hall Hs. rewrite fetch_prices_dex_steps.
    destruct l as [|a l]; [congruence|].
    unfold DexScreenerClient._validate_token_addresses.
    rewrite (validate_each_all w _ Hall).
    cbn [fst]. rewrite Hs. reflexivity.
Qed.

Lemma transport_exception_propagates_witness :
  fst (DexScreenerClient.fetch_token_overview (sample_env (Err RequestException)) WSOL [])
  = Err RequestException.
Proof.
  apply (transport_exception_propagates (sample_env (Err RequestException))
                                        RequestException []).
  - split; [discriminate | reflexivity].
  - reflexivity.
Defined.

(** X6: a response with status 200 whose body is not JSON makes each of
    the four methods raise the decoding error of [response.json()]. *)
Theorem undecodable_body_raises_JSONDecodeError (w : Env) (tr : Trace) :
  (forall l, l <> [] -> send w (multi_price_request w l) = Ok (mkResponse 200 None) ->
             fst (BirdEyeClient.fetch_prices w l tr) = Err JSONDecodeError) /\
  (forall a, is_solana_address w a = true ->
             send w (overview_request w a) = Ok (mkResponse 200 None) ->
             fst (BirdEyeClient.fetch_token_overview w a tr) = Err JSONDecodeError) /\
  (forall a, acceptable w a -> send w (single_request a) = Ok (mkResponse 200 None) ->
             fst (DexScreenerClient.fetch_token_overview w a tr) = Err JSONDecodeError) /\
  (forall l, l <> [] -> Forall (acceptable w) l ->
             send w (bulk_request l) = Ok (mkResponse 200 None) ->
             fst (DexScreenerClient.fetch_prices_dex w l tr) = Err JSONDecodeError).
Proof.
  repeat split.
  - intros l Hne Hs. rewrite fetch_prices_steps by exact Hne.
    cbn [fst]. rewrite Hs. reflexivity.
  - intros a Hv Hs. rewrite birdeye_overview_steps by exact Hv.
    cbn [fst]. rewrite Hs. reflexivity.
  - intros a Ha Hs. rewrite dex_overview_steps.
    destruct (validate_address_spec w a) as [[_ ->]|[Hn _]]; [|contradiction].
    cbn [fst]. rewrite Hs. reflexivity.
  - intros l Hne Hall Hs. rewrite fetch_prices_dex_steps.
    destruct l as [|a l]; [congruence|].
    unfold DexScreenerClient._validate_token_addresses.
    rewrite (validate_each_all w _ Hall).
    cbn [fst]. rewrite Hs. reflexivity.
Qed.

Lemma undecodable_body_raises_JSONDecodeError_witness :
  fst (BirdEyeClient.fetch_prices (sample_env (Ok (mkResponse 200 None))) ["TOKEN1"] [])
  = Err JSONDecodeError.
Proof.
  apply (undecodable_body_raises_JSONDecodeError (sample_env (Ok (mkResponse 200 None))) []).
  - discriminate.
  - reflexivity.
Defined.

(** X7: [_validate_token_addresses] lets a list through exactly when it
    is not empty and every address in it is non-empty and passes the
    address check. *)
Theorem validate_token_addresses_iff (w : Env) (token_addresses : list string) :
  DexScreenerClient._validate_token_addresses w token_addresses = Ok tt <->
  token_addresses <> [] /\ Forall (acceptable w) token_addresses.
Proof. apply validate_token_addresses_iff_aux. Qed.

(** X8: [fetch_prices_dex] reports the first address of the list that is
    empty or fails the address check, whatever follows it:
    [NoPositionsError] for an empty string, [InvalidSolanaAddress] naming
    the address otherwise; no request is sent. *)
Theorem fetch_prices_dex_reports_first_bad_address
        (w : Env) (good rest : list string) (bad : string) (tr : Trace) :
  Forall (acceptable w) good -> ~ acceptable w bad ->
  DexScreenerClient.fetch_prices_dex w (good ++ bad :: rest)%list tr
  = (Err (if String.eqb bad "" then NoPositionsError else InvalidSolanaAddress bad), tr).
Proof.
  intros Hgood Hbad. rewrite fetch_prices_dex_steps.
  assert (Hv : DexScreenerClient._validate_token_addresses w (good ++ bad :: rest)%list
               = Err (rejection bad)).
  { unfold DexScreenerClient._validate_token_addresses.
    rewrite <- (validate_each_first w good rest bad Hgood Hbad).
    destruct good; reflexivity. }
  rewrite Hv. reflexivity.
Qed.

Lemma fetch_prices_dex_reports_first_bad_address_witness :
  DexScreenerClient.fetch_prices_dex (sample_env (Err RequestException))
    ([WSOL] ++ "not-an-address" :: [""; USDC])%list []
  = (Err (InvalidSolanaAddress "not-an-address"), []).
Proof.
  apply (fetch_prices_dex_reports_first_bad_address
           (sample_env (Err RequestException)) [WSOL] [""; USDC] "not-an-address" []).
  - repeat constructor; discriminate.
  - intros [_ H]. vm_compute in H. discriminate H.
Defined.

(* ===================================================================== *)
(** * The pair list of the second provider *)
(* ===================================================================== *)

Lemma dex_decode_200 (data : json) : dex_decode (mkResponse 200 (Some data)) = Ok data.
Proof. reflexivity. Qed.

Lemma fetch_prices_dex_on_data (w : Env) (l : list string) (tr : Trace) (data : json) :
  l <> [] -> Forall (acceptable w) l ->
  send w (bulk_request l) = Ok (mkResponse 200 (Some data)) ->
  DexScreenerClient.fetch_prices_dex w l tr
  = (DexScreenerClient.prices_of_data w data, (tr ++ [bulk_request l])%list).
Proof.
  intros Hne Hall Hs. rewrite fetch_prices_dex_steps.
  rewrite (proj2 (validate_token_addresses_iff_aux w l) (conj Hne Hall)).
  rewrite Hs. cbn [rbind]. rewrite dex_decode_200. reflexivity.
Qed.

Lemma dex_overview_on_data (w : Env) (a : string) (tr : Trace) (data : json) :
  acceptable w a ->
  send w (single_request a) = Ok (mkResponse 200 (Some data)) ->
  DexScreenerClient.fetch_token_overview w a tr
  = (DexScreenerClient.overview_of_data w data, (tr ++ [single_request a])%list).
Proof.
  intros Ha Hs. rewrite dex_overview_steps.
  destruct (validate_address_spec w a) as [[_ ->]|[Hn _]]; [|contradiction].
  rewrite Hs. cbn [rbind]. rewrite dex_decode_200. reflexivity.
Qed.

Lemma dex_loop_first_error (w : Env) (good rest : list json) (bad : json) (e : exn) :
  (forall p, In p good -> exists kv, DexScreenerClient.price_entry w p = Ok kv) ->
  DexScreenerClient.price_entry w bad = Err e ->
  forall d, DexScreenerClient.prices_loop w (good ++ bad :: rest)%list d = Err e.
Proof.
  intros Hgood Hbad. induction good as [|p good IH]; intros d; cbn.
  - rewrite Hbad. reflexivity.
  - destruct (Hgood p (or_introl eq_refl)) as [kv Hkv]. rewrite Hkv. cbn.
    apply IH. intros; apply Hgood; now right.
Qed.

(** X9: with a status 200 answer, a body without the [pairs] key raises
    [KeyError] in both methods of the second provider and a null [pairs]
    raises [TypeError]; an empty [pairs] list gives [fetch_prices_dex] the
    empty mapping. *)
Theorem pairs_missing_null_or_empty (w : Env) (d : list (string * json)) (tr : Trace) :
  (forall l, l <> [] -> Forall (acceptable w) l ->
     send w (bulk_request l) = Ok (mkResponse 200 (Some (JDict d))) ->
     (Py.lookup "pairs" d = None ->
      fst (DexScreenerClient.fetch_prices_dex w l tr) = Err (KeyError (JStr "pairs"))) /\
     (Py.lookup "pairs" d = Some JNull ->
      fst (DexScreenerClient.fetch_prices_dex w l tr) = Err TypeError) /\
     (Py.lookup "pairs" d = Some (JList []) ->
      fst (DexScreenerClient.fetch_prices_dex w l tr) = Ok PyDict.empty)) /\
  (forall a, acceptable w a ->
     send w (single_request a) = Ok (mkResponse 200 (Some (JDict d))) ->
     (Py.lookup "pairs" d = None ->
      fst (DexScreenerClient.fetch_token_overview w a tr) = Err (KeyError (JStr "pairs"))) /\
     (Py.lookup "pairs" d = Some JNull ->
      fst (DexScreenerClient.fetch_token_overview w a tr) = Err TypeError)).
Proof.
  split.
  - intros l Hne Hall Hs. rewrite (fetch_prices_dex_on_data w l tr _ Hne Hall Hs).
    unfold DexScreenerClient.prices_of_data, Py.getitem. cbn [fst].
    repeat split; intros ->; reflexivity.
  - intros a Ha Hs. rewrite (dex_overview_on_data w a tr _ Ha Hs).
    unfold DexScreenerClient.overview_of_data, Py.getitem. cbn [fst].
    repeat split; intros ->; reflexivity.
Qed.

Lemma pairs_missing_null_or_empty_witness :
  fst (DexScreenerClient.fetch_prices_dex
         (sample_env (ok_json (JDict [("schemaVersion", JStr "1.0.0"); ("pairs", JNull)])))
         [WSOL] [])
  = Err TypeError.
Proof.
  apply (proj1 (pairs_missing_null_or_empty
                  (sample_env (ok_json (JDict [("schemaVersion", JStr "1.0.0");
                                               ("pairs", JNull)])))
                  [("schemaVersion", JStr "1.0.0"); ("pairs", JNull)] []) [WSOL]).
  - discriminate.
  - repeat constructor; discriminate.
  - reflexivity.
  - reflexivity.
Defined.

(** X10: [fetch_prices_dex] returns nothing partial: the first pair of
    the response on which building the entry raises makes the whole call
    raise that exception, however many pairs before it were fine. *)
Theorem fetch_prices_dex_first_bad_pair_aborts
        (w : Env) (l : list string) (tr : Trace) (d : list (string * json))
        (good rest : list json) (bad : json) (e : exn) :
  l <> [] -> Forall (acceptable w) l ->
  send w (bulk_request l) = Ok (mkResponse 200 (Some (JDict d))) ->
  Py.lookup "pairs" d = Some (JList (good ++ bad :: rest)%list) ->
  (forall p, In p good -> exists kv, DexScreenerClient.price_entry w p = Ok kv) ->
  DexScreenerClient.price_entry w bad = Err e ->
  DexScreenerClient.fetch_prices_dex w l tr = (Err e, (tr ++ [bulk_request l])%list).
Proof.
  intros Hne Hall Hs Hp Hgood Hbad.
  rewrite (fetch_prices_dex_on_data w l tr _ Hne Hall Hs).
  unfold DexScreenerClient.prices_of_data, Py.getitem. rewrite Hp. cbn [rbind Py.iter].
  rewrite (dex_loop_first_error w good rest bad e Hgood Hbad). reflexivity.
Qed.

Lemma fetch_prices_dex_first_bad_pair_aborts_witness :
  DexScreenerClient.fetch_prices_dex
    (sample_env (ok_json (JDict [("pairs",
       JList ([mk_pair USDC WSOL "0.5" (JInt 900)]
              ++ mk_pair WSOL USDC "n/a" (JInt 10) :: [mk_pair USDC WSOL "0.7" (JInt 10)])%list)])))
    [USDC] []
  = (Err InvalidOperation, ([] ++ [bulk_request [USDC]])%list).
Proof.
  apply (fetch_prices_dex_first_bad_pair_aborts
           (sample_env (ok_json (JDict [("pairs",
              JList ([mk_pair USDC WSOL "0.5" (JInt 900)]
                     ++ mk_pair WSOL USDC "n/a" (JInt 10)
                     :: [mk_pair USDC WSOL "0.7" (JInt 10)])%list)])))
           [USDC] []
           [("pairs",
              JList ([mk_pair USDC WSOL "0.5" (JInt 900)]
                     ++ mk_pair WSOL USDC "n/a" (JInt 10)
                     :: [mk_pair USDC WSOL "0.7" (JInt 10)])%list)]
           [mk_pair USDC WSOL "0.5" (JInt 900)] [mk_pair USDC WSOL "0.7" (JInt 10)]
           (mk_pair WSOL USDC "n/a" (JInt 10)) InvalidOperation).
  - discriminate.
  - repeat constructor; discriminate.
  - reflexivity.
  - reflexivity.
  - intros p [<-|[]]. eexists. vm_compute. reflexivity.
  - vm_compute. reflexivity.
Defined.

(* ===================================================================== *)
(** * The mapping built by the bulk price methods *)
(* ===================================================================== *)

Lemma fetch_prices_on_data (w : Env) (l : list string) (tr : Trace)
      (top : list (string * json)) :
  l <> [] ->
  send w (multi_price_request w l) = Ok (mkResponse 200 (Some (JDict top))) ->
  Py.truthy (success_flag top) = true ->
  BirdEyeClient.fetch_prices w l tr
  = (BirdEyeClient.prices_loop w (JDict top) l PyDict.empty,
     (tr ++ [multi_price_request w l])%list).
Proof.
  intros Hne Hs Ht. rewrite fetch_prices_steps by exact Hne. rewrite Hs. cbn [rbind].
  unfold birdeye_decode, json_of. cbn [status_code body Z.eqb Pos.eqb negb rbind Py.get].
  fold (success_flag top). rewrite Ht. reflexivity.
Qed.

Lemma birdeye_loop_first_error (w : Env) (data : json)
      (good rest : list string) (bad : string) (e : exn) :
  (forall a, In a good -> readable w data a) ->
  (BirdEyeClient.token_data_of data bad = Err e \/
   exists td, BirdEyeClient.token_data_of data bad = Ok td /\
              Py.truthy td = true /\ BirdEyeClient.price_info w td = Err e) ->
  forall d, BirdEyeClient.prices_loop w data (good ++ bad :: rest)%list d = Err e.
Proof.
  intros Hgood Hbad. induction good as [|a good IH]; intros d; cbn [app BirdEyeClient.prices_loop].
  - destruct Hbad as [->|(td & -> & Ht & Hi)]; [reflexivity|].
    cbn [rbind]. rewrite Ht, Hi. reflexivity.
  - destruct (Hgood a (or_introl eq_refl)) as (td & -> & Hinfo). cbn [rbind].
    destruct (Py.truthy td).
    + destruct (Hinfo eq_refl) as [info ->]. cbn [rbind].
      apply IH. intros; apply Hgood; now right.
    + apply IH. intros; apply Hgood; now right.
Qed.

Lemma length_set_le {V} (k : pykey) (v : V) (d : PyDict.t V) :
  (List.length (PyDict.set k v d) <= S (List.length d))%nat.
Proof.
  induction d as [|[k' v'] d IH]; cbn; [lia|].
  destruct (pykey_eqb k' k); cbn; lia.
Qed.

Lemma NoDup_keys_set {V} (k : pykey) (v : V) (d : PyDict.t V) :
  NoDup (PyDict.keys d) -> NoDup (PyDict.keys (PyDict.set k v d)).
Proof.
  unfold PyDict.keys. induction d as [|[k' v'] d IH]; cbn; intros Hnd.
  - constructor; [intros [] | constructor].
  - inversion Hnd as [|? ? Hnotin Hrest]; subst.
    destruct (pykey_eqb k' k) eqn:E; cbn.
    + constructor; assumption.
    + constructor; [|now apply IH].
      intros Hin. apply (PyDictFacts.keys_set k k' v d) in Hin.
      destruct Hin as [->|Hin]; [|contradiction].
      rewrite pykey_eqb_refl in E. discriminate.
Qed.

Lemma birdeye_loop_size (w : Env) (data : json) (l : list string) :
  forall d m,
    BirdEyeClient.prices_loop w data l d = Ok m ->
    (NoDup (PyDict.keys d) -> NoDup (PyDict.keys m)) /\
    (List.length m <= List.length d + List.length l)%nat.
Proof.
  induction l as [|a l IH]; intros d m Hrun; cbn in Hrun.
  - inversion Hrun; subst. split; [auto | lia].
  - destruct (BirdEyeClient.token_data_of data a) as [td|e]; [|discriminate].
    cbn in Hrun. destruct (Py.truthy td).
    + destruct (BirdEyeClient.price_info w td) as [info|e]; [|discriminate].
      cbn in Hrun. destruct (IH _ _ Hrun) as [Hnd Hlen]. split.
      * intros H. apply Hnd. now apply NoDup_keys_set.
      * pose proof (length_set_le (KStr a) info d). cbn [List.length]. lia.
    + destruct (IH _ _ Hrun) as [Hnd Hlen]. split; [exact Hnd | cbn [List.length]; lia].
Qed.

Lemma dex_loop_size (w : Env) (pairs : list json) :
  forall d m,
    DexScreenerClient.prices_loop w pairs d = Ok m ->
    (NoDup (PyDict.keys d) -> NoDup (PyDict.keys m)) /\
    (List.length m <= List.length d + List.length pairs)%nat.
Proof.
  induction pairs as [|p l IH]; intros d m Hrun; cbn in Hrun.
  - inversion Hrun; subst. split; [auto | lia].
  - destruct (DexScreenerClient.price_entry w p) as [[k i]|e]; [|discriminate].
    cbn in Hrun. destruct (IH _ _ Hrun) as [Hnd Hlen]. split.
    + intros H. apply Hnd. now apply NoDup_keys_set.
    + pose proof (length_set_le k i d). cbn [List.length]. lia.
Qed.

(** X11: [fetch_prices] returns nothing partial either: the first
    requested address whose entry cannot be read (the payload or the entry
    is not a mapping, or a price or liquidity field does not convert)
    makes the whole call raise that exception, whatever the addresses
    before it produced. *)
Theorem fetch_prices_first_bad_entry_aborts
        (w : Env) (tr : Trace) (top : list (string * json))
        (good rest : list string) (bad : string) (e : exn) :
  send w (multi_price_request w (good ++ bad :: rest)%list)
    = Ok (mkResponse 200 (Some (JDict top))) ->
  Py.truthy (success_flag top) = true ->
  (forall a, In a good -> readable w (JDict top) a) ->
  (BirdEyeClient.token_data_of (JDict top) bad = Err e \/
   exists td, BirdEyeClient.token_data_of (JDict top) bad = Ok td /\
              Py.truthy td = true /\ BirdEyeClient.price_info w td = Err e) ->
  BirdEyeClient.fetch_prices w (good ++ bad :: rest)%list tr
  = (Err e, (tr ++ [multi_price_request w (good ++ bad :: rest)%list])%list).
Proof.
  intros Hs Ht Hgood Hbad.
  rewrite (fetch_prices_on_data w _ tr top) by (auto; destruct good; discriminate).
  rewrite (birdeye_loop_first_error w (JDict top) good rest bad e Hgood Hbad). reflexivity.
Qed.

Lemma fetch_prices_first_bad_entry_aborts_witness :
  BirdEyeClient.fetch_prices
    (sample_env (ok_json (JDict [("success", JBool true);
       ("data", JDict [("TOKEN1", JDict [("price", JStr "1.23")]);
                       ("TOKEN2", JDict [("price", JNull)])])])))
    (["TOKEN1"] ++ "TOKEN2" :: ["TOKEN3"])%list []
  = (Err TypeError,
     ([] ++ [multi_price_request
               (sample_env (ok_json (JDict [("success", JBool true);
                  ("data", JDict [("TOKEN1", JDict [("price", JStr "1.23")]);
                                  ("TOKEN2", JDict [("price", JNull)])])])))
               (["TOKEN1"] ++ "TOKEN2" :: ["TOKEN3"])%list])%list).
Proof.
  apply (fetch_prices_first_bad_entry_aborts
           (sample_env (ok_json (JDict [("success", JBool true);
              ("data", JDict [("TOKEN1", JDict [("price", JStr "1.23")]);
                              ("TOKEN2", JDict [("price", JNull)])])])))
           []
           [("success", JBool true);
            ("data", JDict [("TOKEN1", JDict [("price", JStr "1.23")]);
                            ("TOKEN2", JDict [("price", JNull)])])]
           ["TOKEN1"] ["TOKEN3"] "TOKEN2" TypeError).
  - reflexivity.
  - reflexivity.
  - intros a [<-|[]]. eexists. split; [reflexivity|]. intros _. eexists. vm_compute. reflexivity.
  - right. eexists. split; [reflexivity|]. split; reflexivity.
Defined.

(** X12: the mapping returned by either bulk price method has each key
    once, and no more entries than there were requested addresses (first
    provider) or pairs in the response (second provider). *)
Theorem bulk_price_mapping_size
        (w : Env) (token_addresses : list string) (tr tr' : Trace)
        (m : PyDict.t PriceInfo) :
  (BirdEyeClient.fetch_prices w token_addresses tr = (Ok m, tr') ->
   NoDup (PyDict.keys m) /\ (List.length m <= List.length token_addresses)%nat) /\
  (DexScreenerClient.fetch_prices_dex w token_addresses tr = (Ok m, tr') ->
   NoDup (PyDict.keys m) /\
   exists resp data ps pairs,
     send w (bulk_request token_addresses) = Ok resp /\
     json_of resp = Ok data /\
     Py.getitem data "pairs" = Ok ps /\
     Py.iter ps = Ok pairs /\
     (List.length m <= List.length pairs)%nat).
Proof.
  split; intros Hrun.
  - destruct (fetch_prices_inv w _ _ _ _ Hrun) as [data Hloop].
    destruct (birdeye_loop_size w data _ _ _ Hloop) as [Hnd Hlen].
    split; [apply Hnd; constructor | exact Hlen].
  - destruct (fetch_prices_dex_inv w _ _ _ _ Hrun)
      as (resp & data & ps & pairs & Hs & Hj & Hp & Hi & Hloop).
    destruct (dex_loop_size w pairs _ _ Hloop) as [Hnd Hlen].
    split; [apply Hnd; constructor|].
    exists resp, data, ps, pairs. repeat (split; [assumption|]). exact Hlen.
Qed.

Lemma bulk_price_mapping_size_witness :
  NoDup (PyDict.keys [(KStr USDC,
                       mkPriceInfo (PyDecimal.Finite false 7 (-1))
                                   (PyDecimal.Finite false 10 0))]) /\
  (List.length [(KStr USDC,
                 mkPriceInfo (PyDecimal.Finite false 7 (-1))
                             (PyDecimal.Finite false 10 0))] <= List.length [USDC])%nat.
Proof.
  destruct (proj2 (bulk_price_mapping_size
              (sample_env (ok_json (JDict [("pairs",
                 JList [mk_pair USDC WSOL "0.5" (JInt 900);
                        mk_pair USDC WSOL "0.7" (JInt 10)])])))
              [USDC] [] [bulk_request [USDC]]
              [(KStr USDC,
                mkPriceInfo (PyDecimal.Finite false 7 (-1)) (PyDecimal.Finite false 10 0))])
            eq_refl) as [Hnd _].
  split; [exact Hnd | cbn; lia].
Defined.

(** X13: [fetch_prices] reads only the entries of the requested
    addresses: two payloads that agree on them give the same result,
    whatever else the provider sent. *)
Theorem fetch_prices_ignores_unrequested_entries
        (w : Env) (data data' : json) (token_addresses : list string)
        (prices : PyDict.t PriceInfo) :
  (forall a, In a token_addresses ->
             BirdEyeClient.token_data_of data a = BirdEyeClient.token_data_of data' a) ->
  BirdEyeClient.prices_loop w data token_addresses prices
  = BirdEyeClient.prices_loop w data' token_addresses prices.
Proof.
  revert prices. induction token_addresses as [|a l IH]; intros prices Hsame; [reflexivity|].
  cbn [BirdEyeClient.prices_loop]. rewrite <- (Hsame a (or_introl eq_refl)).
  destruct (BirdEyeClient.token_data_of data a) as [td|e]; [|reflexivity]. cbn [rbind].
  destruct (Py.truthy td).
  - destruct (BirdEyeClient.price_info w td); [|reflexivity]. cbn [rbind].
    apply IH. intros; apply Hsame; now right.
  - apply IH. intros; apply Hsame; now right.
Qed.

Lemma fetch_prices_ignores_unrequested_entries_witness :
  BirdEyeClient.prices_loop (sample_env (Err RequestException))
    (JDict [("data", JDict [("TOKEN1", JDict [("price", JStr "1.23")]);
                            ("TOKEN9", JDict [("price", JNull)])])])
    ["TOKEN1"] PyDict.empty
  = BirdEyeClient.prices_loop (sample_env (Err RequestException))
      (JDict [("data", JDict [("TOKEN1", JDict [("price", JStr "1.23")])])])
      ["TOKEN1"] PyDict.empty.
Proof.
  apply (fetch_prices_ignores_unrequested_entries (sample_env (Err RequestException))).
  intros a [<-|[]]. reflexivity.
Defined.

(* ===================================================================== *)
(** * The query string of the multi-price request *)
(* ===================================================================== *)

Module StrFacts.

Lemma append_assoc (a b c : string) : ((a ++ b) ++ c = a ++ (b ++ c))%string.
Proof. induction a as [|x a IH]; cbn; [reflexivity | now rewrite IH]. Qed.

Lemma append_nil_r (a : string) : (a ++ "" = a)%string.
Proof. induction a as [|x a IH]; cbn; [reflexivity | now rewrite IH]. Qed.

Lemma list_ascii_of_string_app (a b : string) :
  list_ascii_of_string (a ++ b) = (list_ascii_of_string a ++ list_ascii_of_string b)%list.
Proof. induction a as [|x a IH]; cbn; [reflexivity | now rewrite IH]. Qed.

Lemma quote_app (a b : string) : Str.quote (a ++ b) = (Str.quote a ++ Str.quote b)%string.
Proof.
  induction a as [|x a IH]; [reflexivity|].
  cbn [append Str.quote]. rewrite IH, append_assoc. reflexivity.
Qed.

Lemma quote_unreserved (s : string) : all_unreserved s -> Str.quote s = s.
Proof.
  unfold all_unreserved. induction s as [|x s IH]; [reflexivity|].
  cbn [list_ascii_of_string Str.quote]. intros H. inversion H as [|? ? Hx Hs]; subst.
  rewrite Hx, (IH Hs). reflexivity.
Qed.

Lemma quote_concat (l : list string) :
  Str.quote (String.concat "," l) = String.concat "%2C" (map Str.quote l).
Proof.
  induction l as [|a l IH]; [reflexivity|].
  destruct l as [|b l]; [reflexivity|].
  cbn [String.concat map] in *. rewrite !quote_app, IH. reflexivity.
Qed.

Lemma map_quote_unreserved (l : list string) :
  Forall all_unreserved l -> map Str.quote l = l.
Proof.
  induction 1 as [|a l Ha _ IH]; [reflexivity|].
  cbn [map]. now rewrite (quote_unreserved a Ha), IH.
Qed.

(** What [quote] writes for one character. *)
Lemma quote_char_safe (c : ascii) :
  forallb url_safe (list_ascii_of_string (Str.quote (String c EmptyString))) = true.
Proof. destruct c as [[] [] [] [] [] [] [] []]; vm_compute; reflexivity. Qed.

Lemma quote_safe (s : string) :
  forallb url_safe (list_ascii_of_string (Str.quote s)) = true.
Proof.
  induction s as [|c s IH]; [reflexivity|].
  change (String c s) with (String c EmptyString ++ s)%string.
  rewrite quote_app, list_ascii_of_string_app, forallb_app, quote_char_safe, IH.
  reflexivity.
Qed.

End StrFacts.

(** X14: in the URL of the multi-price request the addresses are
    percent-encoded one by one and joined with [%2C], the encoding of the
    comma; addresses made of letters, digits and [_.-~/] go into the URL
    unchanged. *)
Theorem multi_price_url_joins_with_encoded_commas (token_addresses : list string) :
  BirdEyeClient.multi_price_url token_addresses
  = ("https://public-api.birdeye.so/defi/multi_price?list_address="
     ++ String.concat "%2C" (map Str.quote token_addresses))%string /\
  (Forall all_unreserved token_addresses ->
   BirdEyeClient.multi_price_url token_addresses
   = ("https://public-api.birdeye.so/defi/multi_price?list_address="
      ++ String.concat "%2C" token_addresses)%string).
Proof.
  assert (H : BirdEyeClient.multi_price_url token_addresses
              = ("https://public-api.birdeye.so/defi/multi_price?list_address="
                 ++ String.concat "%2C" (map Str.quote token_addresses))%string).
  { unfold BirdEyeClient.multi_price_url. rewrite StrFacts.quote_concat.
    rewrite <- StrFacts.append_assoc. reflexivity. }
  split; [exact H|]. intros Hall. rewrite H, (StrFacts.map_quote_unreserved _ Hall).
  reflexivity.
Qed.

Lemma multi_price_url_joins_with_encoded_commas_witness :
  BirdEyeClient.multi_price_url [WSOL; USDC]
  = ("https://public-api.birdeye.so/defi/multi_price?list_address="
     ++ String.concat "%2C" [WSOL; USDC])%string.
Proof.
  apply (proj2 (multi_price_url_joins_with_encoded_commas [WSOL; USDC])).
  repeat constructor.
Defined.

(** X15: whatever the addresses hold, the encoded list in the URL is made
    of unreserved characters, [/] and [%] only: no comma, space or
    non-ASCII character reaches the query string. *)
Theorem quoted_list_is_url_safe (token_addresses : list string) :
  forallb url_safe
          (list_ascii_of_string (Str.quote (String.concat "," token_addresses))) = true.
Proof. apply StrFacts.quote_safe. Qed.

(* ===================================================================== *)
(** * The overview of the second provider *)
(* ===================================================================== *)

(** X16: the overview of the second provider is built from the first
    pair of the response alone: two responses with the same first pair
    give the same result, whatever pairs follow and whatever their
    liquidity. *)
Theorem overview_uses_first_pair_only
        (w : Env) (d d' : list (string * json)) (first : json) (rest rest' : list json) :
  Py.lookup "pairs" d = Some (JList (first :: rest)) ->
  Py.lookup "pairs" d' = Some (JList (first :: rest')) ->
  DexScreenerClient.overview_of_data w (JDict d)
  = DexScreenerClient.overview_of_data w (JDict d').
Proof.
  intros H H'. unfold DexScreenerClient.overview_of_data, Py.getitem.
  rewrite H, H'. reflexivity.
Qed.

Lemma overview_uses_first_pair_only_witness :
  DexScreenerClient.overview_of_data (sample_env (Err RequestException))
    (JDict [("pairs", JList [mk_pair USDC WSOL "0.5" (JInt 10);
                             mk_pair USDC WSOL "0.7" (JInt 900)])])
  = DexScreenerClient.overview_of_data (sample_env (Err RequestException))
      (JDict [("pairs", JList [mk_pair USDC WSOL "0.5" (JInt 10)])]).
Proof.
  apply (overview_uses_first_pair_only (sample_env (Err RequestException))
           [("pairs", JList [mk_pair USDC WSOL "0.5" (JInt 10);
                             mk_pair USDC WSOL "0.7" (JInt 900)])]
           [("pairs", JList [mk_pair USDC WSOL "0.5" (JInt 10)])]
           (mk_pair USDC WSOL "0.5" (JInt 10))
           [mk_pair USDC WSOL "0.7" (JInt 900)] []); reflexivity.
Defined.



(** X18: [baseToken] and [liquidity] are required in the first pair: when
    one of them is absent [fetch_token_overview] of the second provider
    raises [KeyError] naming it, [baseToken] first, whatever the other
    fields hold; a first pair that is null raises [TypeError]. *)
Theorem dex_overview_required_keys
        (w : Env) (address : string) (tr : Trace) (d : list (string * json))
        (first : json) (rest : list json) :
  acceptable w address ->
  send w (single_request address) = Ok (mkResponse 200 (Some (JDict d))) ->
  Py.lookup "pairs" d = Some (JList (first :: rest)) ->
  (forall pd, first = JDict pd -> Py.lookup "baseToken" pd = None ->
     fst (DexScreenerClient.fetch_token_overview w address tr)
     = Err (KeyError (JStr "baseToken"))) /\
  (forall pd bt, first = JDict pd -> Py.lookup "baseToken" pd = Some bt ->
     Py.lookup "liquidity" pd = None ->
     fst (DexScreenerClient.fetch_token_overview w address tr)
     = Err (KeyError (JStr "liquidity"))) /\
  (first = JNull ->
   fst (DexScreenerClient.fetch_token_overview w address tr) = Err TypeError).
Proof.
  intros Ha Hs Hp. rewrite (dex_overview_on_data w address tr _ Ha Hs).
  unfold DexScreenerClient.overview_of_data. cbn [fst Py.getitem].
  rewrite Hp. cbn [rbind Py.getitem0]. repeat split.
  - intros pd -> Hb. cbn [Py.getitem]. rewrite Hb. reflexivity.
  - intros pd bt -> Hb Hl. cbn [Py.getitem]. rewrite Hb. cbn [rbind]. rewrite Hl. reflexivity.
  - intros ->. reflexivity.
Qed.

Lemma dex_overview_required_keys_witness :
  fst (DexScreenerClient.fetch_token_overview
         (sample_env (ok_json (JDict [("pairs",
            JList [JDict [("baseToken", JDict [("address", JStr USDC)]);
                          ("priceUsd", JStr "1.0")]])])))
         USDC [])
  = Err (KeyError (JStr "liquidity")).
Proof.
  apply (proj1 (proj2 (dex_overview_required_keys
           (sample_env (ok_json (JDict [("pairs",
              JList [JDict [("baseToken", JDict [("address", JStr USDC)]);
                            ("priceUsd", JStr "1.0")]])])))
           USDC []
           [("pairs", JList [JDict [("baseToken", JDict [("address", JStr USDC)]);
                                    ("priceUsd", JStr "1.0")]])]
           (JDict [("baseToken", JDict [("address", JStr USDC)]); ("priceUsd", JStr "1.0")])
           []
           (conj (fun H : USDC = "" => ltac:(discriminate H)) eq_refl) eq_refl eq_refl))
         [("baseToken", JDict [("address", JStr USDC)]); ("priceUsd", JStr "1.0")]
         (JDict [("address", JStr USDC)]) eq_refl eq_refl eq_refl).
Defined.

(* ===================================================================== *)
(** * More on the selection of the largest pool *)
(* ===================================================================== *)

Section LargestPoolMore.

Variable w : Env.
Variable address : string.

Lemma largest_loop_skips (token_pairs : list json) :
  (forall e, In e token_pairs ->
     DexScreenerClient.entry_matches w e address = Ok false \/
     (DexScreenerClient.entry_matches w e address = Ok true /\
      exists f, DexScreenerClient.liquidity_usd w e = Ok f /\
                PyFloat.gt f PyFloat.neg_one = false)) ->
  DexScreenerClient.largest_loop w token_pairs address (JDict []) PyFloat.neg_one
  = Ok (JDict []).
Proof.
  induction token_pairs as [|e rest IH]; intros H; [reflexivity|].
  cbn [DexScreenerClient.largest_loop].
  destruct (H e (or_introl eq_refl)) as [Hm|(Hm & f & Hf & Hg)];
    rewrite Hm; cbn [rbind]; [|rewrite Hf; cbn [rbind]; rewrite Hg];
    apply IH; intros; apply H; now right.
Qed.

Lemma largest_loop_result (token_pairs : list json) :
  forall best bl r,
    DexScreenerClient.largest_loop w token_pairs address best bl = Ok r ->
    r = best \/
    (In r token_pairs /\ is_sol_pool w address r = true /\
     exists f, DexScreenerClient.liquidity_usd w r = Ok f /\ SFltb bl f = true).
Proof.
  induction token_pairs as [|e rest IH]; intros best bl r Hrun; cbn in Hrun.
  - inversion Hrun. now left.
  - destruct (DexScreenerClient.entry_matches w e address) as [b|err] eqn:Hm; [|discriminate].
    cbn [rbind] in Hrun. destruct b.
    + destruct (DexScreenerClient.liquidity_usd w e) as [f|err] eqn:Hf; [|discriminate].
      cbn [rbind] in Hrun. unfold PyFloat.gt in Hrun.
      destruct (SFltb bl f) eqn:Hgt.
      * destruct (IH _ _ _ Hrun) as [->|(Hin & Hp & f' & Hf' & Hlt)].
        -- right. split; [now left|]. split; [|eauto].
           now apply (entry_matches_is_sol_pool w address e true).
        -- right. split; [now right|]. split; [exact Hp|]. exists f'. split; [exact Hf'|].
           destruct (FloatOrderFacts.SFltb_not_nan _ _ Hgt) as [Hn1 Hn2].
           destruct (FloatOrderFacts.SFltb_not_nan _ _ Hlt) as [_ Hn3].
           exact (FloatOrderFacts.SFltb_trans bl f f' Hn1 Hn2 Hn3 Hgt Hlt).
      * destruct (IH _ _ _ Hrun) as [->|(Hin & Hp & f' & Hf' & Hlt)]; [now left|].
        right. split; [now right|]. eauto.
    + destruct (IH _ _ _ Hrun) as [->|(Hin & Hp & f' & Hf' & Hlt)]; [now left|].
      right. split; [now right|]. eauto.
Qed.

Lemma largest_loop_first_error (before after : list json) (entry : json) (err : exn) :
  (forall e, In e before ->
     DexScreenerClient.entry_matches w e address = Ok false \/
     (DexScreenerClient.entry_matches w e address = Ok true /\
      exists f, DexScreenerClient.liquidity_usd w e = Ok f)) ->
  (DexScreenerClient.entry_matches w entry address = Err err \/
   (DexScreenerClient.entry_matches w entry address = Ok true /\
    DexScreenerClient.liquidity_usd w entry = Err err)) ->
  forall best bl,
    DexScreenerClient.largest_loop w (before ++ entry :: after)%list address best bl = Err err.
Proof.
  intros Hbefore Hentry.
  induction before as [|e before IH]; intros best bl;
    cbn [app DexScreenerClient.largest_loop].
  - destruct Hentry as [Hm|[Hm Hf]]; rewrite Hm; [reflexivity|].
    cbn [rbind]. rewrite Hf. reflexivity.
  - assert (Hrest : forall e', In e' before ->
              DexScreenerClient.entry_matches w e' address = Ok false \/
              (DexScreenerClient.entry_matches w e' address = Ok true /\
               exists f, DexScreenerClient.liquidity_usd w e' = Ok f))
      by (intros; apply Hbefore; now right).
    destruct (Hbefore e (or_introl eq_refl)) as [Hm|(Hm & f & Hf)];
      rewrite Hm; cbn [rbind].
    + now apply IH.
    + rewrite Hf. cbn [rbind]. destruct (PyFloat.gt f bl); now apply IH.
Qed.

End LargestPoolMore.

(** X19: whenever [find_largest_pool_with_sol] returns, the result is
    either the empty mapping or one of the given entries, and in that
    case the entry matches (base token [address], quote token the
    wrapped-SOL mint) and has a liquidity above -1. *)
Theorem find_largest_pool_with_sol_returns_a_matching_entry
        (w : Env) (token_pairs : list json) (address : string) (r : json) :
  DexScreenerClient.find_largest_pool_with_sol w token_pairs address = Ok r ->
  r = JDict [] \/
  (In r token_pairs /\ is_sol_pool w address r = true /\
   exists f, DexScreenerClient.liquidity_usd w r = Ok f /\
             PyFloat.gt f PyFloat.neg_one = true).
Proof. apply largest_loop_result. Qed.

Lemma find_largest_pool_with_sol_returns_a_matching_entry_witness :
  pool USDC WSOL 500 = JDict [] \/
  (In (pool USDC WSOL 500) [pool USDC WSOL 100; pool USDC WSOL 500; pool USDC USDC 900] /\
   is_sol_pool (sample_env (Err RequestException)) USDC (pool USDC WSOL 500) = true /\
   exists f, DexScreenerClient.liquidity_usd (sample_env (Err RequestException))
               (pool USDC WSOL 500) = Ok f /\
             PyFloat.gt f PyFloat.neg_one = true).
Proof.
  apply (find_largest_pool_with_sol_returns_a_matching_entry
           (sample_env (Err RequestException))
           [pool USDC WSOL 100; pool USDC WSOL 500; pool USDC USDC 900] USDC).
  vm_compute. reflexivity.
Defined.

(** X20: when the [SOL_MINT] variable is not set, no pair whose quote
    token has an address other than null can match, so for well-shaped
    pairs [find_largest_pool_with_sol] returns the empty mapping whatever
    their liquidity. *)
Theorem find_largest_pool_with_sol_without_SOL_MINT
        (w : Env) (token_pairs : list json) (address : string) :
  SOL_MINT w = None ->
  (forall e, In e token_pairs -> pair_shape address e) ->
  (forall e, In e token_pairs -> sub_address "quoteToken" e <> Some JNull) ->
  DexScreenerClient.find_largest_pool_with_sol w token_pairs address = Ok (JDict []).
Proof.
  intros Hmint Hshape Hquote. apply largest_loop_skips. intros e He. left.
  destruct (pair_shape_evaluates w address e (Hshape e He)) as [b Hb].
  pose proof (entry_matches_is_sol_pool w address e b Hb) as Hp.
  destruct b; [|exact Hb]. exfalso.
  unfold is_sol_pool in Hp. specialize (Hquote e He).
  destruct (sub_address "baseToken" e); [|discriminate].
  destruct (sub_address "quoteToken" e) as [q|]; [|discriminate].
  apply andb_true_iff in Hp. destruct Hp as [_ Hq]. rewrite Hmint in Hq.
  destruct q; try discriminate. now apply Hquote.
Qed.

Lemma find_largest_pool_with_sol_without_SOL_MINT_witness :
  DexScreenerClient.find_largest_pool_with_sol
    (mkEnv is_base58_pubkey None None (fun _ => Err RequestException)
           (fun _ => None) (fun _ => Err ValueError))
    [pool USDC WSOL 100; pool USDC WSOL 500] USDC
  = Ok (JDict []).
Proof.
  apply (find_largest_pool_with_sol_without_SOL_MINT
           (mkEnv is_base58_pubkey None None (fun _ => Err RequestException)
                  (fun _ => None) (fun _ => Err ValueError))
           [pool USDC WSOL 100; pool USDC WSOL 500] USDC).
  - reflexivity.
  - intros e [<-|[<-|[]]];
      (eexists; split; [reflexivity|]; right; eexists; split; [reflexivity|];
       intros _; eexists; eexists; split; reflexivity).
  - intros e [<-|[<-|[]]]; discriminate.
Defined.

(** X21: a matching pair whose liquidity is not above the initial -1
    (a value of -1 or less, or a NaN) is never selected: when all the
    matching pairs are such, the result is the empty mapping. *)
Theorem find_largest_pool_with_sol_skips_low_liquidity
        (w : Env) (token_pairs : list json) (address : string) :
  (forall e, In e token_pairs ->
     exists b, DexScreenerClient.entry_matches w e address = Ok b) ->
  (forall e, In e token_pairs -> is_sol_pool w address e = true ->
     exists f, DexScreenerClient.liquidity_usd w e = Ok f /\
               PyFloat.gt f PyFloat.neg_one = false) ->
  DexScreenerClient.find_largest_pool_with_sol w token_pairs address = Ok (JDict []).
Proof.
  intros Hm Hl. apply largest_loop_skips. intros e He.
  destruct (Hm e He) as [b Hb].
  pose proof (entry_matches_is_sol_pool w address e b Hb) as Hp.
  destruct b; [right | left; exact Hb]. split; [exact Hb|]. now apply Hl.
Qed.

Lemma find_largest_pool_with_sol_skips_low_liquidity_witness :
  DexScreenerClient.find_largest_pool_with_sol (sample_env (Err RequestException))
    [pool USDC WSOL (-1);
     JDict [("baseToken", JDict [("address", JStr USDC)]);
            ("quoteToken", JDict [("address", JStr WSOL)]);
            ("liquidity", JDict [("usd", JFloat S754_nan)])]] USDC
  = Ok (JDict []).
Proof.
  apply (find_largest_pool_with_sol_skips_low_liquidity
           (sample_env (Err RequestException))
           [pool USDC WSOL (-1);
            JDict [("baseToken", JDict [("address", JStr USDC)]);
                   ("quoteToken", JDict [("address", JStr WSOL)]);
                   ("liquidity", JDict [("usd", JFloat S754_nan)])]] USDC).
  - intros e [<-|[<-|[]]]; eexists; vm_compute; reflexivity.
  - intros e [<-|[<-|[]]] _; eexists; split; vm_compute; reflexivity.
Defined.

(** X22: a matching pair without a [liquidity] key, or whose liquidity
    has no [usd], counts with liquidity 0, which is above the initial -1:
    alone in the list, it is the pair returned. *)
Theorem find_largest_pool_with_sol_defaults_liquidity_to_zero
        (w : Env) (d : list (string * json)) (address : string) :
  DexScreenerClient.entry_matches w (JDict d) address = Ok true ->
  (Py.lookup "liquidity" d = None \/
   exists lq, Py.lookup "liquidity" d = Some (JDict lq) /\ Py.lookup "usd" lq = None) ->
  DexScreenerClient.liquidity_usd w (JDict d) = Ok (S754_zero false) /\
  DexScreenerClient.find_largest_pool_with_sol w [JDict d] address = Ok (JDict d).
Proof.
  intros Hm Hl.
  assert (Hf : DexScreenerClient.liquidity_usd w (JDict d) = Ok (S754_zero false)).
  { unfold DexScreenerClient.liquidity_usd, Py.get at 1.
    destruct Hl as [->|(lq & -> & Hu)]; cbn [rbind Py.get Py.lookup]; [|rewrite Hu];
      reflexivity. }
  split; [exact Hf|].
  unfold DexScreenerClient.find_largest_pool_with_sol.
  cbn [DexScreenerClient.largest_loop]. rewrite Hm. cbn [rbind]. rewrite Hf. reflexivity.
Qed.

Lemma find_largest_pool_with_sol_defaults_liquidity_to_zero_witness :
  DexScreenerClient.find_largest_pool_with_sol (sample_env (Err RequestException))
    [JDict [("baseToken", JDict [("address", JStr USDC)]);
            ("quoteToken", JDict [("address", JStr WSOL)])]] USDC
  = Ok (JDict [("baseToken", JDict [("address", JStr USDC)]);
               ("quoteToken", JDict [("address", JStr WSOL)])]).
Proof.
  apply (find_largest_pool_with_sol_defaults_liquidity_to_zero
           (sample_env (Err RequestException))
           [("baseToken", JDict [("address", JStr USDC)]);
            ("quoteToken", JDict [("address", JStr WSOL)])] USDC).
  - vm_compute. reflexivity.
  - left. reflexivity.
Defined.

(** X23: the scan stops at the first entry on which the test raises, or
    which matches and whose liquidity cannot be read as a float, and
    raises that exception, whatever was selected before it and whatever
    follows. *)
Theorem find_largest_pool_with_sol_first_bad_entry_aborts
        (w : Env) (before after : list json) (entry : json) (address : string)
        (err : exn) :
  (forall e, In e before ->
     DexScreenerClient.entry_matches w e address = Ok false \/
     (DexScreenerClient.entry_matches w e address = Ok true /\
      exists f, DexScreenerClient.liquidity_usd w e = Ok f)) ->
  (DexScreenerClient.entry_matches w entry address = Err err \/
   (DexScreenerClient.entry_matches w entry address = Ok true /\
    DexScreenerClient.liquidity_usd w entry = Err err)) ->
  DexScreenerClient.find_largest_pool_with_sol w (before ++ entry :: after)%list address
  = Err err.
Proof.
  intros Hbefore Hentry. unfold DexScreenerClient.find_largest_pool_with_sol.
  now apply largest_loop_first_error.
Qed.

Lemma find_largest_pool_with_sol_first_bad_entry_aborts_witness :
  DexScreenerClient.find_largest_pool_with_sol (sample_env (Err RequestException))
    ([pool USDC WSOL 100]
     ++ JDict [("baseToken", JDict [("address", JStr USDC)]);
               ("quoteToken", JDict [("address", JStr WSOL)]);
               ("liquidity", JNull)] :: [pool USDC WSOL 500])%list USDC
  = Err AttributeError.
Proof.
  apply (find_largest_pool_with_sol_first_bad_entry_aborts
           (sample_env (Err RequestException)) [pool USDC WSOL 100] [pool USDC WSOL 500]
           (JDict [("baseToken", JDict [("address", JStr USDC)]);
                   ("quoteToken", JDict [("address", JStr WSOL)]);
                   ("liquidity", JNull)]) USDC AttributeError).
  - intros e [<-|[]]. right. split; [vm_compute; reflexivity|].
    eexists. vm_compute. reflexivity.
  - right. split; vm_compute; reflexivity.
Defined.

(* ===================================================================== *)
(** * Fields that are JSON numbers *)
(* ===================================================================== *)

Module FloatValue.

Local Open Scope Q_scope.

Lemma two_nonzero : ~ (2 # 1) == 0.
Proof. intros H. discriminate H. Qed.

Lemma strip_twos_value (m : positive) :
  forall e, inject_Z (Z.pos (fst (PyFloat.strip_twos m e)))
            * (2 # 1) ^ snd (PyFloat.strip_twos m e)
            == inject_Z (Z.pos m) * (2 # 1) ^ e.
Proof.
  induction m as [m IH|m IH|]; intros e; cbn [PyFloat.strip_twos fst snd]; try reflexivity.
  rewrite IH. rewrite Qpower_plus by apply two_nonzero.
  change (Z.pos m~0) with (2 * Z.pos m)%Z. rewrite inject_Z_mult.
  change ((2 # 1) ^ 1) with (2 # 1). change (inject_Z 2) with (2 # 1). ring.
Qed.

Lemma inject_to_N (z : Z) : (0 <= z)%Z -> inject_Z (Z.of_N (Z.to_N z)) = inject_Z z.
Proof. intros H. now rewrite Z2N.id. Qed.

Lemma ten_two_five (k : Z) : (10 # 1) ^ k == (2 # 1) ^ k * (5 # 1) ^ k.
Proof. rewrite <- Qmult_power. reflexivity. Qed.

(** The decimal made from an odd-mantissa float has the float's value. *)
Lemma odd_form_value (m : positive) (e : Z) :
  (if (0 <=? e)%Z
   then inject_Z (Z.of_N (Z.to_N (Z.pos m * 2 ^ e))) * (10 # 1) ^ 0
   else inject_Z (Z.of_N (Z.to_N (Z.pos m * 5 ^ (- e)))) * (10 # 1) ^ e)
  == inject_Z (Z.pos m) * (2 # 1) ^ e.
Proof.
  destruct (Z.leb_spec 0 e) as [He|He].
  - rewrite inject_to_N by (apply Z.mul_nonneg_nonneg; [lia | apply Z.pow_nonneg; lia]).
    rewrite inject_Z_mult, Zpower_Qpower by exact He.
    change (inject_Z 2) with (2 # 1). change ((10 # 1) ^ 0) with 1. ring.
  - rewrite inject_to_N by (apply Z.mul_nonneg_nonneg; [lia | apply Z.pow_nonneg; lia]).
    rewrite inject_Z_mult, Zpower_Qpower by lia. change (inject_Z 5) with (5 # 1).
    rewrite ten_two_five.
    assert (H5 : (5 # 1) ^ (- e) * (5 # 1) ^ e == 1).
    { rewrite <- Qpower_plus by (intros H; discriminate H).
      replace (- e + e)%Z with 0%Z by lia. reflexivity. }
    transitivity (inject_Z (Z.pos m) * (2 # 1) ^ e * ((5 # 1) ^ (- e) * (5 # 1) ^ e));
      [ring|].
    rewrite H5. ring.
Qed.

Lemma of_float_value (f : spec_float) (q : Q) :
  float_value f = Some q ->
  exists q', PyDecimal.to_Q (PyDecimal.of_float f) = Some q' /\ q' == q.
Proof.
  destruct f as [s|s| |s m e]; cbn [float_value]; try discriminate; intros H;
    inversion H; subst q; clear H.
  - cbn. eexists. split; [reflexivity|]. destruct s; reflexivity.
  - cbn [PyDecimal.of_float].
    pose proof (strip_twos_value m e) as Hv.
    destruct (PyFloat.strip_twos m e) as [m' e']. cbn [fst snd] in Hv.
    pose proof (odd_form_value m' e') as Ho.
    destruct (0 <=? e')%Z; cbn [PyDecimal.to_Q]; eexists; (split; [reflexivity|]);
      destruct s.
    + transitivity (- (inject_Z (Z.pos m) * (2 # 1) ^ e)); [|ring].
      rewrite <- Hv, <- Ho. ring.
    + rewrite <- Hv, <- Ho. reflexivity.
    + transitivity (- (inject_Z (Z.pos m) * (2 # 1) ^ e)); [|ring].
      rewrite <- Hv, <- Ho. ring.
    + rewrite <- Hv, <- Ho. reflexivity.
Qed.

End FloatValue.

(** The binary64 float nearest to one tenth. *)
Lemma tenth_float_is_not_a_tenth :
  exists q, float_value (S754_finite false 7205759403792794 (-56)) = Some q /\
            ~ (q == 1 # 10)%Q.
Proof. eexists. split; [reflexivity|]. intros H. vm_compute in H. discriminate H. Qed.

(** X24: a price or liquidity that the response gives as a JSON number
    and not as a string is stored by [fetch_prices_dex] with the exact
    value of the number as decoded: the integer itself, or the binary
    value of the float, which is not in general the decimal written in
    the response. *)
Theorem json_numbers_kept_at_their_binary_value
        (w : Env) (pair_ lq usd : json) (kv : pykey * PriceInfo) :
  Py.getitem pair_ "liquidity" = Ok lq ->
  Py.getitem lq "usd" = Ok usd ->
  DexScreenerClient.price_entry w pair_ = Ok kv ->
  (forall f q, usd = JFloat f -> float_value f = Some q ->
     exists q', PyDecimal.to_Q (liquidity (snd kv)) = Some q' /\ (q' == q)%Q) /\
  (forall n, usd = JInt n ->
     exists q', PyDecimal.to_Q (liquidity (snd kv)) = Some q' /\ (q' == inject_Z n)%Q).
Proof.
  intros Hlq Husd Hkv. unfold DexScreenerClient.price_entry in Hkv.
  destruct (Py.getitem pair_ "priceNative") as [pn|e]; [|discriminate]. cbn [rbind] in Hkv.
  destruct (Decimal w pn) as [v|e]; [|discriminate]. cbn [rbind] in Hkv.
  rewrite Hlq in Hkv. cbn [rbind] in Hkv. rewrite Husd in Hkv. cbn [rbind] in Hkv.
  destruct (Decimal w usd) as [v'|e] eqn:Hv'; [|discriminate]. cbn [rbind] in Hkv.
  destruct (Py.getitem pair_ "baseToken") as [bt|e]; [|discriminate]. cbn [rbind] in Hkv.
  destruct (Py.getitem bt "address") as [a|e]; [|discriminate]. cbn [rbind] in Hkv.
  destruct (key_of_json a) as [k|e]; [|discriminate]. cbn [rbind] in Hkv.
  inversion Hkv; subst kv. cbn [snd liquidity]. split.
  - intros f q -> Hq. cbn [Decimal] in Hv'. inversion Hv'; subst v'.
    now apply FloatValue.of_float_value.
  - intros n ->. cbn [Decimal] in Hv'. inversion Hv'; subst v'.
    unfold PyDecimal.of_Z, PyDecimal.to_Q. eexists. split; [reflexivity|].
    rewrite N2Z.inj_abs_N. destruct (Z.ltb_spec n 0) as [Hn|Hn].
    + rewrite Z.abs_neq by lia. rewrite inject_Z_opp. change ((10 # 1) ^ 0)%Q with 1%Q. ring.
    + rewrite Z.abs_eq by lia. change ((10 # 1) ^ 0)%Q with 1%Q. ring.
Qed.

Lemma json_numbers_kept_at_their_binary_value_witness :
  exists q', PyDecimal.to_Q (PyDecimal.Finite false 15 (-1)) = Some q' /\ (q' == 3 # 2)%Q.
Proof.
  destruct (proj1 (json_numbers_kept_at_their_binary_value
                     (sample_env (Err RequestException))
                     (mk_pair USDC WSOL "0.7" (JFloat (S754_finite false 3 (-1))))
                     (JDict [("usd", JFloat (S754_finite false 3 (-1)))])
                     (JFloat (S754_finite false 3 (-1)))
                     (KStr USDC, mkPriceInfo (PyDecimal.Finite false 7 (-1))
                                             (PyDecimal.Finite false 15 (-1)))
                     eq_refl eq_refl eq_refl)
                  (S754_finite false 3 (-1)) (3 # 2)%Q eq_refl) as (q' & Hq' & Heq).
  - cbn. f_equal.
  - exists q'. split; assumption.
Defined.

(** X25: a status 200 body that is JSON but not an object (a list, a
    string, a number, null) raises [AttributeError] in both methods of
    the first provider, at [data.get], and [TypeError] in both methods of
    the second, at [data['pairs']]. *)
Theorem body_not_an_object (w : Env) (data : json) (tr : Trace) :
  (forall d, data <> JDict d) ->
  (forall l, l <> [] -> send w (multi_price_request w l) = Ok (mkResponse 200 (Some data)) ->
             fst (BirdEyeClient.fetch_prices w l tr) = Err AttributeError) /\
  (forall a, is_solana_address w a = true ->
             send w (overview_request w a) = Ok (mkResponse 200 (Some data)) ->
             fst (BirdEyeClient.fetch_token_overview w a tr) = Err AttributeError) /\
  (forall a, acceptable w a ->
             send w (single_request a) = Ok (mkResponse 200 (Some data)) ->
             fst (DexScreenerClient.fetch_token_overview w a tr) = Err TypeError) /\
  (forall l, l <> [] -> Forall (acceptable w) l ->
             send w (bulk_request l) = Ok (mkResponse 200 (Some data)) ->
             fst (DexScreenerClient.fetch_prices_dex w l tr) = Err TypeError).
Proof.
  intros Hnot.
  assert (Hb : birdeye_decode (mkResponse 200 (Some data)) = Err AttributeError).
  { unfold birdeye_decode, json_of. cbn [status_code body Z.eqb Pos.eqb negb rbind].
    destruct data; try reflexivity. exfalso. now apply (Hnot d). }
  assert (Hg : Py.getitem data "pairs" = Err TypeError).
  { destruct data; try reflexivity. exfalso. now apply (Hnot d). }
  repeat split.
  - intros l Hne Hs. rewrite fetch_prices_steps by exact Hne.
    cbn [fst]. rewrite Hs. cbn [rbind]. rewrite Hb. reflexivity.
  - intros a Hv Hs. rewrite birdeye_overview_steps by exact Hv.
    cbn [fst]. rewrite Hs. cbn [rbind]. rewrite Hb. reflexivity.
  - intros a Ha Hs. rewrite (dex_overview_on_data w a tr _ Ha Hs).
    unfold DexScreenerClient.overview_of_data. rewrite Hg. reflexivity.
  - intros l Hne Hall Hs. rewrite (fetch_prices_dex_on_data w l tr _ Hne Hall Hs).
    unfold DexScreenerClient.prices_of_data. rewrite Hg. reflexivity.
Qed.

Lemma body_not_an_object_witness :
  fst (BirdEyeClient.fetch_prices (sample_env (ok_json (JList []))) ["TOKEN1"] [])
  = Err AttributeError.
Proof.
  apply (body_not_an_object (sample_env (ok_json (JList []))) (JList []) []).
  - intros d H. discriminate H.
  - discriminate.
  - reflexivity.
Defined.

(** X26: entries that do not match play no part in the selection: when
    the test raises on no entry, [find_largest_pool_with_sol] gives on the
    whole list what it gives on the matching entries alone, a raised
    exception included. *)
Theorem find_largest_pool_with_sol_ignores_other_entries
        (w : Env) (token_pairs : list json) (address : string) :
  (forall e, In e token_pairs ->
     exists b, DexScreenerClient.entry_matches w e address = Ok b) ->
  DexScreenerClient.find_largest_pool_with_sol w token_pairs address
  = DexScreenerClient.find_largest_pool_with_sol w
      (filter (is_sol_pool w address) token_pairs) address.
Proof.
  intros Hm. unfold DexScreenerClient.find_largest_pool_with_sol.
  generalize PyFloat.neg_one as bl. generalize (JDict []) as best.
  induction token_pairs as [|e rest IH]; intros best bl; [reflexivity|].
  assert (Hrest : forall e', In e' rest ->
            exists b, DexScreenerClient.entry_matches w e' address = Ok b)
    by (intros; apply Hm; now right).
  destruct (Hm e (or_introl eq_refl)) as [b Hb].
  pose proof (entry_matches_is_sol_pool w address e b Hb) as Hp.
  cbn [filter]. rewrite Hp. destruct b; cbn [DexScreenerClient.largest_loop]; rewrite Hb;
    cbn [rbind].
  - destruct (DexScreenerClient.liquidity_usd w e) as [f|err]; [|reflexivity]. cbn [rbind].
    destruct (PyFloat.gt f bl); now apply IH.
  - now apply IH.
Qed.

Lemma find_largest_pool_with_sol_ignores_other_entries_witness :
  DexScreenerClient.find_largest_pool_with_sol (sample_env (Err RequestException))
    [pool USDC USDC 900; pool USDC WSOL 100; JDict []; pool USDC WSOL 500] USDC
  = DexScreenerClient.find_largest_pool_with_sol (sample_env (Err RequestException))
      (filter (is_sol_pool (sample_env (Err RequestException)) USDC)
         [pool USDC USDC 900; pool USDC WSOL 100; JDict []; pool USDC WSOL 500]) USDC.
Proof.
  apply (find_largest_pool_with_sol_ignores_other_entries
           (sample_env (Err RequestException))
           [pool USDC USDC 900; pool USDC WSOL 100; JDict []; pool USDC WSOL 500] USDC).
  intros e [<-|[<-|[<-|[<-|[]]]]]; eexists; vm_compute; reflexivity.
Defined.
